(** * ISO 4217 currency codes: the lookup tables of [FxCodes] and the
      two command-line queries built on them.

    The development follows [iso_4217_currency_codes.py] and
    [currency_code.py].

    - Python text is modelled by [string], and [str.upper] by the ASCII
      case mapping (letters [a]..[z] go to [A]..[Z], every other
      character is kept), which is what [str.upper] does on ASCII text.
    - The data file [iso_4217_currency_codes.json] is a parameter: a list
      of objects whose [Entity] and [Currency] are text, whose
      [AlphabeticCode] is missing, [null] or text, and whose [Owner] and
      [Primary] are missing or any scalar.
    - [COUNTRY_CODES], of the [country_codes] package, is a parameter.
    - How Python prints a set (the order of its elements) is a
      parameter, [repr_set]. *)

From Stdlib Require Import Ascii String ZArith.
From stdpp Require Import gmap strings list fin_maps.

Local Open Scope string_scope.
#[local] Set Warnings "-clear-no-such-hyp".

(** ** Text *)

Module Text.

Definition is_lower (c : ascii) : bool :=
  let n := nat_of_ascii c in (97 <=? n)%nat && (n <=? 122)%nat.

Definition upper_ascii (c : ascii) : ascii :=
  if is_lower c then ascii_of_nat (nat_of_ascii c - 32) else c.

(** [str.upper()], on ASCII text.  The statements below use [upper]
    through the equation [upper s = upper s'] and, in one place,
    through [upper (upper s) = upper s]; only the lemmas on
    [casing_variant] and on [mentions] look at the letters. *)
Fixpoint upper (s : string) : string :=
  match s with
  | EmptyString => EmptyString
  | String c s' => String (upper_ascii c) (upper s')
  end.

(** Two characters are the same letter when they are equal or are
    the capital and the small form of one ASCII letter (the small
    form sits 32 places after the capital one). *)
Definition same_letter (c c' : ascii) : Prop :=
  c = c' ∨
  ((65 ≤ nat_of_ascii c ≤ 90)%nat ∧ nat_of_ascii c' = (nat_of_ascii c + 32)%nat) ∨
  ((65 ≤ nat_of_ascii c' ≤ 90)%nat ∧ nat_of_ascii c = (nat_of_ascii c' + 32)%nat).

(** [casing_variant s s']: the same letters in the same places, in
    any case. *)
Fixpoint casing_variant (s s' : string) : Prop :=
  match s, s' with
  | EmptyString, EmptyString => True
  | String c r, String c' r' => same_letter c c' ∧ casing_variant r r'
  | _, _ => False
  end.

(** Is [p] a prefix of [s]; does [p] occur in [s]. *)
Fixpoint starts_with (p s : string) : bool :=
  match p, s with
  | EmptyString, _ => true
  | String a p', String b s' => if decide (a = b) then starts_with p' s' else false
  | String _ _, EmptyString => false
  end.

Fixpoint occurs_in (p s : string) : bool :=
  starts_with p s ||
  match s with
  | EmptyString => false
  | String _ s' => occurs_in p s'
  end.

(** A line mentions a phrase when the phrase occurs in it, letter
    case apart. *)
Definition mentions (phrase line : string) : bool :=
  occurs_in (upper phrase) (upper line).

End Text.
Export Text.

(** ** Python values and outcomes *)

(** The scalar JSON values as Python reads them ([None], [bool], [int],
    [str]). *)
Inductive json :=
| JNull
| JBool (b : bool)
| JNum (n : Z)
| JStr (s : string).

(** Python's truth value of an object. *)
Definition truthy (v : json) : bool :=
  match v with
  | JNull => false
  | JBool b => b
  | JNum n => negb (n =? 0)%Z
  | JStr s => negb (bool_decide (s = ""))
  end.

(** Truth value of an [Optional[str]]: [None] and the empty text are
    false. *)
Definition truthy_opt (o : option string) : bool :=
  match o with
  | None => false
  | Some s => negb (bool_decide (s = ""))
  end.

(** [str(x)] for an [Optional[str]], as an f-string renders it. *)
Definition str_opt (o : option string) : string :=
  match o with
  | None => "None"
  | Some s => s
  end.

Inductive exn_class := FxCodesException | StopIteration.

(** A raised exception: its class and the message it was built with. *)
Record exn := Exn { exn_cls : exn_class; exn_message : string }.

Inductive result (A : Type) :=
| Return (a : A)
| Raise (e : exn).
Arguments Return {A} a.
Arguments Raise {A} e.

(** The value a call returned, when it returned. *)
Definition returned {A} (r : result A) : option A :=
  match r with
  | Return a => Some a
  | Raise _ => None
  end.

Definition raises {A} (r : result A) : bool :=
  match r with
  | Return _ => false
  | Raise _ => true
  end.

(** ** The dataset *)

(** The [AlphabeticCode] member of a JSON object of the data file: the
    key may be missing, may hold [null], or holds the code as text. *)
Inductive code_field :=
| CodeMissing
| CodeNull
| CodeText (s : string).

(** [entry.get(JSON_CURRENCY_ISO)]: [None] for a missing key and for
    [null]. *)
Definition get_code (f : code_field) : option string :=
  match f with
  | CodeText s => Some s
  | CodeMissing | CodeNull => None
  end.

(** [entry.get(key)] for the two flags: a missing key reads as [None]. *)
Definition get_flag (f : option json) : json := default JNull f.

(** One JSON object of the data file.  [Entity] and [Currency] are
    read with [entry[...]] and upper-cased, so they are text;
    [AlphabeticCode], [Owner] and [Primary] are read with
    [entry.get]. *)
Record json_entry := JsonEntry {
  Entity : string;
  Currency : string;
  AlphabeticCode : code_field;
  Owner : option json;
  Primary : option json
}.

(** An object kept by [json_data]: its [AlphabeticCode] is not [None],
    and is stored here as the text it is. *)
Record entry := Entry {
  country : string;
  currency : string;
  currency_iso : string;
  owner_flag : json;
  main_flag : json
}.

(** ** defaultdict(set) *)

Module DefaultDict.

(** [d[k]]: a missing key is first bound to a fresh empty set. *)
Definition getitem (d : gmap string (gset string)) (k : string)
  : gset string * gmap string (gset string) :=
  match d !! k with
  | Some s => (s, d)
  | None => (∅, <[k := ∅]> d)
  end.

(** [d[k].add(v)]. *)
Definition add_to (d : gmap string (gset string)) (k v : string)
  : gmap string (gset string) :=
  let '(s, d') := getitem d k in <[k := s ∪ {[v]}]> d'.

(** [d.get(k)]: reads only; the default factory is not called. *)
Definition get (d : gmap string (gset string)) (k : string) : option (gset string) :=
  d !! k.

End DefaultDict.

(** ** FxCodes: the derived tables and the lookups

    Each [cached_property] is given here as the value its body computes
    from the retained entries; [Module Lazy] below adds the cache and
    shows that it only ever stores these values. *)

Module FxCodes.

(** The filter of [json_data] on one object: kept when
    [entry.get(JSON_CURRENCY_ISO) is not None]. *)
Definition keep (e : json_entry) : option entry :=
  match get_code (AlphabeticCode e) with
  | Some iso =>
      Some (Entry (Entity e) (Currency e) iso (get_flag (Owner e)) (get_flag (Primary e)))
  | None => None
  end.

(** [FxCodes.json_data]:
    [tuple(entry for entry in data if entry.get(JSON_CURRENCY_ISO) is not None)]. *)
Definition json_data (data : list json_entry) : list entry := omap keep data.

  (** *** Tables, as functions of the retained entries *)
Section Tables.
Variable entries : list entry.

Definition currencies : gset string := list_to_set (currency <$> entries).

Definition currency_iso_codes : gset string := list_to_set (currency_iso <$> entries).

Definition countries : gset string := list_to_set (country <$> entries).

(** [{entry[CURRENCY].upper(): entry[ISO] for entry in json_data}]:
    a later entry overwrites an earlier one with the same key. *)
Definition currency_to_currency_iso_map : gmap string string :=
  foldl (λ m e, <[upper (currency e) := currency_iso e]> m) ∅ entries.

(** [{entry[ISO]: entry[CURRENCY] for entry in json_data}]. *)
Definition currency_iso_to_currency_map : gmap string string :=
  foldl (λ m e, <[currency_iso e := currency e]> m) ∅ entries.

(** [d[entry[COUNTRY].upper()].add(entry[ISO])] for each entry. *)
Definition country_to_currency_isos_map : gmap string (gset string) :=
  foldl (λ d e, DefaultDict.add_to d (upper (country e)) (currency_iso e)) ∅ entries.

(** [d[entry[ISO]].add(entry[COUNTRY])] for each entry. *)
Definition currency_iso_to_countries_map : gmap string (gset string) :=
  foldl (λ d e, DefaultDict.add_to d (currency_iso e) (country e)) ∅ entries.

(** [{entry[ISO]: entry[COUNTRY] for entry in json_data if entry.get(OWNER)}]. *)
Definition currency_iso_to_owner_country_map : gmap string string :=
  foldl (λ m e, if truthy (owner_flag e) then <[currency_iso e := country e]> m else m)
        ∅ entries.

(** [{entry[COUNTRY].upper(): entry[ISO] for entry in json_data if entry.get(MAIN)}]. *)
Definition country_to_primary_currency_iso_map : gmap string string :=
  foldl (λ m e, if truthy (main_flag e) then <[upper (country e) := currency_iso e]> m else m)
        ∅ entries.
End Tables.

(** [next(iter(s))]: the first element the set yields; an exhausted
    iterator raises [StopIteration]. *)
Definition next_iter (s : gset string) : result (option string) :=
  match elements s with
  | x :: _ => Return (Some x)
  | [] => Raise (Exn StopIteration "")
  end.

(** *** Lookups, as functions of the tables

    The bodies of the six methods, given the tables they read. *)
Section Lookups.
(** How Python prints a set inside an f-string; the order of the
    elements is not fixed by the language. *)
Variable repr_set : gset string → string.

Definition get_currency_iso_from_currency (m : gmap string string) (currency : string)
  : option string :=
  m !! upper currency.

Definition get_currency_from_currency_iso (m : gmap string string) (iso : string)
  : option string :=
  m !! upper iso.

Definition get_currency_isos_from_country (d : gmap string (gset string)) (country : string)
  : gset string :=
  match DefaultDict.get d (upper country) with
  | None => ∅
  | Some isos => isos
  end.

Definition get_countries_from_currency_iso (d : gmap string (gset string)) (currency_iso : string)
  : gset string :=
  match DefaultDict.get d (upper currency_iso) with
  | None => ∅
  | Some countries => countries
  end.

Definition currency_message (country : string) (currency_isos : gset string) : string :=
  "No unique currency ISO for country ISO '" +:+ country +:+ "' possibilities: "
    +:+ repr_set currency_isos.

Definition owner_message (currency_iso : string) (countries : gset string) : string :=
  "No unique ownership for ISO '" +:+ currency_iso +:+ "' used by: "
    +:+ repr_set countries.

(** *** Lookups, as functions of the data file *)
Variable data : list json_entry.

Definition currency_iso_from_currency (currency : string) : option string :=
  get_currency_iso_from_currency (currency_to_currency_iso_map (json_data data)) currency.

Definition currency_from_currency_iso (iso : string) : option string :=
  get_currency_from_currency_iso (currency_iso_to_currency_map (json_data data)) iso.

Definition currency_isos_from_country (country : string) : gset string :=
  get_currency_isos_from_country (country_to_currency_isos_map (json_data data)) country.

Definition currency_iso_from_country (country : string) : result (option string) :=
  let currency_isos := currency_isos_from_country country in
  let count := size currency_isos in
  if (count =? 0)%nat then Return None
  else if (count =? 1)%nat then next_iter currency_isos
  else
    match country_to_primary_currency_iso_map (json_data data) !! upper country with
    | Some primary => Return (Some primary)
    | None => Raise (Exn FxCodesException (currency_message country currency_isos))
    end.

Definition countries_from_currency_iso (currency_iso : string) : gset string :=
  get_countries_from_currency_iso (currency_iso_to_countries_map (json_data data)) currency_iso.

Definition country_from_currency_iso (currency_iso : string) : result (option string) :=
  let countries := countries_from_currency_iso currency_iso in
  let count := size countries in
  if (count =? 0)%nat then Return None
  else if (count =? 1)%nat then next_iter countries
  else
    let owner := currency_iso_to_owner_country_map (json_data data) !! upper currency_iso in
    if truthy_opt owner then Return owner
    else Raise (Exn FxCodesException (owner_message currency_iso countries)).

End Lookups.

End FxCodes.

(** ** Lazy: the [FxCodes] object with its [cached_property] slots

    A [cached_property] runs its body on the first read and stores the
    value in the object; later reads return the stored value.  The
    object is threaded through every call. *)

Module Lazy.

Record fx_codes := FxObject {
  data_file_contents : list json_entry;
  slot_json_data : option (list entry);
  slot_currency_to_currency_iso_map : option (gmap string string);
  slot_currency_iso_to_currency_map : option (gmap string string);
  slot_country_to_currency_isos_map : option (gmap string (gset string));
  slot_currency_iso_to_countries_map : option (gmap string (gset string));
  slot_currency_iso_to_owner_country_map : option (gmap string string);
  slot_country_to_primary_currency_iso_map : option (gmap string string)
}.

(** [FX_CODES = FxCodes()]: nothing is computed yet. *)
Definition new (data : list json_entry) : fx_codes :=
  FxObject data None None None None None None None.

(** A method call: it reads and may update the object, and returns or
    raises. *)
Definition M (A : Type) : Type := fx_codes → result A * fx_codes.

Definition ret {A} (a : A) : M A := λ σ, (Return a, σ).

Definition raise {A} (e : exn) : M A := λ σ, (Raise e, σ).

Definition bind {A B} (m : M A) (k : A → M B) : M B :=
  λ σ, match m σ with
       | (Return a, σ') => k a σ'
       | (Raise e, σ') => (Raise e, σ')
       end.

Notation "'let*' x := m 'in' k" := (bind m (λ x, k))
  (at level 10, x name, m at level 100, k at level 200).

(** Reading a [cached_property] whose slot is read by [slot] and
    written by [store]. *)
Definition cached_property {A} (slot : fx_codes → option A)
    (store : A → fx_codes → fx_codes) (body : M A) : M A :=
  λ σ, match slot σ with
       | Some v => (Return v, σ)
       | None =>
           match body σ with
           | (Return v, σ') => (Return v, store v σ')
           | (Raise e, σ') => (Raise e, σ')
           end
       end.

Definition store_json_data v (σ : fx_codes) : fx_codes :=
  FxObject (data_file_contents σ) (Some v) (slot_currency_to_currency_iso_map σ)
    (slot_currency_iso_to_currency_map σ) (slot_country_to_currency_isos_map σ)
    (slot_currency_iso_to_countries_map σ) (slot_currency_iso_to_owner_country_map σ)
    (slot_country_to_primary_currency_iso_map σ).

Definition store_currency_to_currency_iso_map v (σ : fx_codes) : fx_codes :=
  FxObject (data_file_contents σ) (slot_json_data σ) (Some v)
    (slot_currency_iso_to_currency_map σ) (slot_country_to_currency_isos_map σ)
    (slot_currency_iso_to_countries_map σ) (slot_currency_iso_to_owner_country_map σ)
    (slot_country_to_primary_currency_iso_map σ).

Definition store_currency_iso_to_currency_map v (σ : fx_codes) : fx_codes :=
  FxObject (data_file_contents σ) (slot_json_data σ) (slot_currency_to_currency_iso_map σ)
    (Some v) (slot_country_to_currency_isos_map σ)
    (slot_currency_iso_to_countries_map σ) (slot_currency_iso_to_owner_country_map σ)
    (slot_country_to_primary_currency_iso_map σ).

Definition store_country_to_currency_isos_map v (σ : fx_codes) : fx_codes :=
  FxObject (data_file_contents σ) (slot_json_data σ) (slot_currency_to_currency_iso_map σ)
    (slot_currency_iso_to_currency_map σ) (Some v)
    (slot_currency_iso_to_countries_map σ) (slot_currency_iso_to_owner_country_map σ)
    (slot_country_to_primary_currency_iso_map σ).

Definition store_currency_iso_to_countries_map v (σ : fx_codes) : fx_codes :=
  FxObject (data_file_contents σ) (slot_json_data σ) (slot_currency_to_currency_iso_map σ)
    (slot_currency_iso_to_currency_map σ) (slot_country_to_currency_isos_map σ)
    (Some v) (slot_currency_iso_to_owner_country_map σ)
    (slot_country_to_primary_currency_iso_map σ).

Definition store_currency_iso_to_owner_country_map v (σ : fx_codes) : fx_codes :=
  FxObject (data_file_contents σ) (slot_json_data σ) (slot_currency_to_currency_iso_map σ)
    (slot_currency_iso_to_currency_map σ) (slot_country_to_currency_isos_map σ)
    (slot_currency_iso_to_countries_map σ) (Some v)
    (slot_country_to_primary_currency_iso_map σ).

Definition store_country_to_primary_currency_iso_map v (σ : fx_codes) : fx_codes :=
  FxObject (data_file_contents σ) (slot_json_data σ) (slot_currency_to_currency_iso_map σ)
    (slot_currency_iso_to_currency_map σ) (slot_country_to_currency_isos_map σ)
    (slot_currency_iso_to_countries_map σ) (slot_currency_iso_to_owner_country_map σ)
    (Some v).

(** [json.loads(self.data_file.read_text(...))], then the filter. *)
Definition json_data : M (list entry) :=
  cached_property slot_json_data store_json_data
    (λ σ, (Return (FxCodes.json_data (data_file_contents σ)), σ)).

Definition currency_to_currency_iso_map : M (gmap string string) :=
  cached_property slot_currency_to_currency_iso_map store_currency_to_currency_iso_map
    (let* entries := json_data in ret (FxCodes.currency_to_currency_iso_map entries)).

Definition currency_iso_to_currency_map : M (gmap string string) :=
  cached_property slot_currency_iso_to_currency_map store_currency_iso_to_currency_map
    (let* entries := json_data in ret (FxCodes.currency_iso_to_currency_map entries)).

Definition country_to_currency_isos_map : M (gmap string (gset string)) :=
  cached_property slot_country_to_currency_isos_map store_country_to_currency_isos_map
    (let* entries := json_data in ret (FxCodes.country_to_currency_isos_map entries)).

Definition currency_iso_to_countries_map : M (gmap string (gset string)) :=
  cached_property slot_currency_iso_to_countries_map store_currency_iso_to_countries_map
    (let* entries := json_data in ret (FxCodes.currency_iso_to_countries_map entries)).

Definition currency_iso_to_owner_country_map : M (gmap string string) :=
  cached_property slot_currency_iso_to_owner_country_map store_currency_iso_to_owner_country_map
    (let* entries := json_data in ret (FxCodes.currency_iso_to_owner_country_map entries)).

Definition country_to_primary_currency_iso_map : M (gmap string string) :=
  cached_property slot_country_to_primary_currency_iso_map
    store_country_to_primary_currency_iso_map
    (let* entries := json_data in ret (FxCodes.country_to_primary_currency_iso_map entries)).

Section Methods.
Variable repr_set : gset string → string.

Definition currency_iso_from_currency (currency : string) : M (option string) :=
  let* m := currency_to_currency_iso_map in
  ret (FxCodes.get_currency_iso_from_currency m currency).

Definition currency_from_currency_iso (iso : string) : M (option string) :=
  let* m := currency_iso_to_currency_map in
  ret (FxCodes.get_currency_from_currency_iso m iso).

Definition currency_isos_from_country (country : string) : M (gset string) :=
  let* d := country_to_currency_isos_map in
  ret (FxCodes.get_currency_isos_from_country d country).

Definition lift {A} (r : result A) : M A := λ σ, (r, σ).

Definition currency_iso_from_country (country : string) : M (option string) :=
  let* currency_isos := currency_isos_from_country country in
  let count := size currency_isos in
  if (count =? 0)%nat then ret None
  else if (count =? 1)%nat then lift (FxCodes.next_iter currency_isos)
  else
    let* m := country_to_primary_currency_iso_map in
    match m !! upper country with
    | Some primary => ret (Some primary)
    | None => raise (Exn FxCodesException (FxCodes.currency_message repr_set country currency_isos))
    end.

Definition countries_from_currency_iso (currency_iso : string) : M (gset string) :=
  let* d := currency_iso_to_countries_map in
  ret (FxCodes.get_countries_from_currency_iso d currency_iso).

Definition country_from_currency_iso (currency_iso : string) : M (option string) :=
  let* countries := countries_from_currency_iso currency_iso in
  let count := size countries in
  if (count =? 0)%nat then ret None
  else if (count =? 1)%nat then lift (FxCodes.next_iter countries)
  else
    let* m := currency_iso_to_owner_country_map in
    let owner := m !! upper currency_iso in
    if truthy_opt owner then ret owner
    else raise (Exn FxCodesException (FxCodes.owner_message repr_set currency_iso countries)).

End Methods.

(** A slot is empty or holds [v]. *)
Definition slot_ok {A} (slot : option A) (v : A) : Prop := slot = None ∨ slot = Some v.

(** Every slot that is filled holds the value its property computes
    from the data file. *)
Definition coherent (σ : fx_codes) : Prop :=
  let entries := FxCodes.json_data (data_file_contents σ) in
  slot_ok (slot_json_data σ) entries ∧
  slot_ok (slot_currency_to_currency_iso_map σ) (FxCodes.currency_to_currency_iso_map entries) ∧
  slot_ok (slot_currency_iso_to_currency_map σ) (FxCodes.currency_iso_to_currency_map entries) ∧
  slot_ok (slot_country_to_currency_isos_map σ) (FxCodes.country_to_currency_isos_map entries) ∧
  slot_ok (slot_currency_iso_to_countries_map σ) (FxCodes.currency_iso_to_countries_map entries) ∧
  slot_ok (slot_currency_iso_to_owner_country_map σ)
    (FxCodes.currency_iso_to_owner_country_map entries) ∧
  slot_ok (slot_country_to_primary_currency_iso_map σ)
    (FxCodes.country_to_primary_currency_iso_map entries).

(** A slot that was filled before still holds the same value after. *)
Definition kept {A} (before after : option A) : Prop := before = None ∨ after = before.

(** No table that existed in [σ] differs in [σ'], and the data file is
    the same. *)
Definition tables_kept (σ σ' : fx_codes) : Prop :=
  data_file_contents σ' = data_file_contents σ ∧
  kept (slot_json_data σ) (slot_json_data σ') ∧
  kept (slot_currency_to_currency_iso_map σ) (slot_currency_to_currency_iso_map σ') ∧
  kept (slot_currency_iso_to_currency_map σ) (slot_currency_iso_to_currency_map σ') ∧
  kept (slot_country_to_currency_isos_map σ) (slot_country_to_currency_isos_map σ') ∧
  kept (slot_currency_iso_to_countries_map σ) (slot_currency_iso_to_countries_map σ') ∧
  kept (slot_currency_iso_to_owner_country_map σ) (slot_currency_iso_to_owner_country_map σ') ∧
  kept (slot_country_to_primary_currency_iso_map σ) (slot_country_to_primary_currency_iso_map σ').

End Lazy.

(** ** currency_code.py: the two command-line queries

    [print] is modelled by the list of lines printed.  The queries call
    the lookups of [FX_CODES]; they are given here over the values
    those lookups return. *)

Module CurrencyCode.

(** What the queries use of [COUNTRY_CODES], the country reference of
    the [country_codes] package. *)
Record country_codes := CountryCodes {
  (** [COUNTRY_CODES.country_from_iso(code)]: the country of a known
      code, else [None]. *)
  country_from_iso : string → option string;
  (** [COUNTRY_CODES.match_country(text)]: the country a free text
      names, else [None]. *)
  match_country : string → option string;
  (** [COUNTRY_CODES.iso_from_country(country)]. *)
  iso_from_country : string → string;
  (** [code in COUNTRY_CODES.codes]. *)
  in_codes : string → bool;
  (** [COUNTRY_CODES[code]]: the display name. *)
  getitem : string → string
}.

(** What a query call did: the lines it printed and the status it
    returned. *)
Record outcome := Outcome { printed : list string; status : Z }.

(** What [parse_args] comes to: the parsed [--iso] flag and query, or
    an exit made by the parser. *)
Inductive parsed_args :=
| Parsed (iso : bool) (query : string)
| ParserExit (out : list string) (code : Z).

Section Queries.
Variable repr_set : gset string → string.
Variable COUNTRY_CODES : country_codes.
Variable data : list json_entry.

Definition country_from_currency_iso (iso : string) : result outcome :=
  match FxCodes.country_from_currency_iso repr_set data iso with
  | Raise e => Raise e
  | Return None => Return (Outcome ["Unknown currency ISO: " +:+ iso] (-1))
  | Return (Some country) =>
      let country :=
        if in_codes COUNTRY_CODES country then getitem COUNTRY_CODES country else country in
      Return (Outcome
                [iso +:+ ": " +:+ country +:+ " ("
                   +:+ str_opt (FxCodes.currency_from_currency_iso data iso) +:+ ")"]
                0)
  end.

(** The lookup key: the text itself when it is a known code, else the
    code of the country the text names, else the text itself. *)
Definition resolve (country : string) : string :=
  match country_from_iso COUNTRY_CODES country with
  | Some _ => country
  | None =>
      match match_country COUNTRY_CODES country with
      | Some country_match => iso_from_country COUNTRY_CODES country_match
      | None => country
      end
  end.

Definition currency_iso_from_country (country : string) : result outcome :=
  let country_code := resolve country in
  match FxCodes.currency_iso_from_country repr_set data country_code with
  | Raise e => Raise e
  | Return None => Return (Outcome ["Unknown country or organization: " +:+ country] (-1))
  | Return (Some iso) =>
      Return (Outcome
                [country +:+ ": " +:+ iso +:+ " ("
                   +:+ str_opt (FxCodes.currency_from_currency_iso data iso) +:+ ")"]
                0)
  end.

(** [parser.parse_args()], of the [argparse] library, which is a
    parameter: it returns the parsed arguments, or ends the run itself
    (for [--help], or for arguments it does not accept) with what it
    printed and the status it passed to [exit]. *)
Variable parse_args : list string → parsed_args.

(** [__main__]: parse the arguments; the [--iso] flag picks the query;
    the status of the query is passed to [exit]. *)
Definition main (argv : list string) : result outcome :=
  match parse_args argv with
  | ParserExit out code => Return (Outcome out code)
  | Parsed iso query =>
      if iso then country_from_currency_iso query else currency_iso_from_country query
  end.

End Queries.

End CurrencyCode.

(** ** Sample data used by the worked examples *)

Module Sample.

(** One way of printing a set: the elements in the order [elements]
    yields them, quoted, between braces. *)
Definition repr_set (s : gset string) : string :=
  "{" +:+ foldr (λ x acc, "'" +:+ x +:+ "', " +:+ acc) "" (elements s) +:+ "}".

Definition row (c n i : string) (o p : option json) : json_entry :=
  JsonEntry c n (CodeText i) o p.

Definition data : list json_entry :=
  [ row "US" "US Dollar" "USD" (Some (JBool true)) None;
    row "EC" "US Dollar" "USD" None None;
    row "FR" "Euro" "EUR" None None;
    row "DE" "Euro" "EUR" None None;
    row "CH" "Swiss Franc" "CHF" None None;
    row "CU" "Cuban Peso" "CUP" None (Some (JBool true));
    row "CU" "Peso Convertible" "CUC" None None;
    row "BT" "Ngultrum" "BTN" None None;
    row "BT" "Indian Rupee" "INR" None None;
    JsonEntry "ANTARCTICA" "No universal currency" CodeMissing None None;
    JsonEntry "PALESTINE" "No universal currency" CodeNull None None ].

Definition country_codes : CurrencyCode.country_codes :=
  CurrencyCode.CountryCodes
    (λ s, if bool_decide (s = "US") then Some "United States" else None)
    (λ s, if bool_decide (upper s = "UNITED STATES") then Some "United States" else None)
    (λ _, "US")
    (λ s, bool_decide (s = "US"))
    (λ _, "United States").

(** A stand-in for the parser: one argument is the query, [--iso]
    before it sets the flag, [--help] prints two lines and exits with
    0, anything else exits with 2. *)
Definition parse_args (argv : list string) : CurrencyCode.parsed_args :=
  match argv with
  | [a] =>
      if bool_decide (a = "--help")
      then CurrencyCode.ParserExit ["usage: currency_code [-h] [--iso] query"; ""] 0
      else CurrencyCode.Parsed false a
  | [a; q] =>
      if bool_decide (a = "--iso") then CurrencyCode.Parsed true q
      else CurrencyCode.ParserExit [] 2
  | _ => CurrencyCode.ParserExit [] 2
  end.

End Sample.
(** ** Auxiliary notions used by the statements *)

(** The entries of [l] that a dict comprehension with key [key] and
    filter [cond] writes to key [k]. *)
Definition writers {A} (key : A → string) (cond : A → bool) (k : string) (l : list A) : list A :=
  filter (λ e, cond e = true ∧ key e = k) l.

(** [e] is a retained entry that flags its code as the primary one of
    country [k] (letter case apart). *)
Definition primary_record (entries : list entry) (k : string) (e : entry) : Prop :=
  e ∈ entries ∧ truthy (main_flag e) = true ∧ upper (country e) = upper k.

(** [e] is a retained entry that flags its country as the owner of the
    code looked up with [c]. *)
Definition owner_record (entries : list entry) (c : string) (e : entry) : Prop :=
  e ∈ entries ∧ truthy (owner_flag e) = true ∧ currency_iso e = upper c.

Module Faulty.

(** A data file in which the entry flagged as owner of a shared code
    has the empty text for its [Entity]. *)
Definition blank_owner : list json_entry :=
  [ JsonEntry "" "Euro" (CodeText "EUR") (Some (JBool true)) None;
    JsonEntry "FR" "Euro" (CodeText "EUR") None None ].

(** A data file whose only entry has the empty text for its code. *)
Definition blank_code : list json_entry :=
  [ JsonEntry "NOWHERE" "Nothing" (CodeText "") None None ].

(** Two codes under one currency name. *)
Definition shared_name : list json_entry :=
  [ JsonEntry "VENEZUELA" "Bolivar Soberano" (CodeText "VES") None None;
    JsonEntry "VENEZUELA" "Bolivar Soberano" (CodeText "VED") None None ].

(** A code written in small letters. *)
Definition small_code : list json_entry :=
  [ JsonEntry "US" "US Dollar" (CodeText "usd") None None ].

End Faulty.

(** An [except cls:] clause catches the outcome. *)
Definition caught_by {A} (cls : exn_class) (r : result A) : bool :=
  match r with
  | Return _ => false
  | Raise e =>
      match cls, exn_cls e with
      | FxCodesException, FxCodesException => true
      | StopIteration, StopIteration => true
      | _, _ => false
      end
  end.

(** The failure of the country lookup has a class of its own: a
    handler for that class catches no outcome of the owner lookup. *)
Definition currency_failure_has_own_class (repr_set : gset string → string)
    (data : list json_entry) : Prop :=
  ∀ k e, FxCodes.currency_iso_from_country repr_set data k = Raise e →
         ∀ c, caught_by (exn_cls e) (FxCodes.country_from_currency_iso repr_set data c) = false.

(** The two ambiguity failures are of different classes. *)
Definition distinct_failure_classes (repr_set : gset string → string)
    (data : list json_entry) : Prop :=
  ∀ k c e1 e2,
    FxCodes.currency_iso_from_country repr_set data k = Raise e1 →
    FxCodes.country_from_currency_iso repr_set data c = Raise e2 →
    exn_cls e1 ≠ exn_cls e2.

(** No retained entry has the empty text for its code. *)
Definition codes_non_empty (entries : list entry) : Prop :=
  ∀ e, e ∈ entries → currency_iso e ≠ "".

(** Going from code [c] to its currency name and back gives [c]. *)
Definition round_trip (data : list json_entry) (c : string) : Prop :=
  ∃ name, FxCodes.currency_from_currency_iso data c = Some name
          ∧ FxCodes.currency_iso_from_currency data name = Some c.

(** Calling [q] changes no table that existed, and calling it again
    gives the same result and changes nothing at all. *)
Definition repeatable {A} (q : Lazy.M A) (σ : Lazy.fx_codes) : Prop :=
  Lazy.tables_kept σ (snd (q σ)) ∧ q (snd (q σ)) = q σ.

(** The call printed one line that mentions "unknown currency code"
    and returned a status other than 0. *)
Definition says_unknown_currency_code (r : result CurrencyCode.outcome) : Prop :=
  ∃ line st,
    r = Return (CurrencyCode.Outcome [line] st)
    ∧ mentions "unknown currency code" line = true
    ∧ st ≠ 0%Z.

(** ** [FxCodes.__getitem__] *)

Module Subscript.

(** [FX_CODES[currency_iso]]: the owner of the code. *)
Definition __getitem__ (repr_set : gset string → string) (data : list json_entry)
    (currency_iso : string) : result (option string) :=
  FxCodes.country_from_currency_iso repr_set data currency_iso.

(** The same on the object with its slots. *)
Definition lazy__getitem__ (repr_set : gset string → string) (currency_iso : string)
  : Lazy.M (option string) :=
  Lazy.country_from_currency_iso repr_set currency_iso.

End Subscript.

(** The lookup a run of [main] rests on once its arguments are
    parsed: by code with [--iso], else by the resolved country. *)
Definition main_lookup (repr_set : gset string → string) (cc : CurrencyCode.country_codes)
    (data : list json_entry) (iso_flag : bool) (query : string) : result (option string) :=
  if iso_flag then FxCodes.country_from_currency_iso repr_set data query
  else FxCodes.currency_iso_from_country repr_set data (CurrencyCode.resolve cc query).

(** * Properties *)

(** ** Text *)

Lemma upper_ascii_same_letter c c' : same_letter c c' → upper_ascii c = upper_ascii c'.
Proof.
  intros [-> | [[Hc Hc'] | [Hc' Hc]]]; [done | |].
  - rewrite <- (ascii_nat_embedding c') at 1.
    unfold upper_ascii, is_lower. rewrite !ascii_nat_embedding.
    rewrite Hc'.
    replace (97 <=? nat_of_ascii c + 32)%nat with true by (symmetry; apply Nat.leb_le; lia).
    replace (nat_of_ascii c + 32 <=? 122)%nat with true by (symmetry; apply Nat.leb_le; lia).
    replace (97 <=? nat_of_ascii c)%nat with false by (symmetry; apply Nat.leb_gt; lia).
    simpl. replace (nat_of_ascii c + 32 - 32)%nat with (nat_of_ascii c) by lia.
    by rewrite ascii_nat_embedding.
  - unfold upper_ascii, is_lower.
    rewrite Hc.
    replace (97 <=? nat_of_ascii c' + 32)%nat with true by (symmetry; apply Nat.leb_le; lia).
    replace (nat_of_ascii c' + 32 <=? 122)%nat with true by (symmetry; apply Nat.leb_le; lia).
    replace (97 <=? nat_of_ascii c')%nat with false by (symmetry; apply Nat.leb_gt; lia).
    simpl. replace (nat_of_ascii c' + 32 - 32)%nat with (nat_of_ascii c') by lia.
    by rewrite ascii_nat_embedding.
Qed.

Lemma upper_casing_variant s s' : casing_variant s s' → upper s = upper s'.
Proof.
  revert s'. induction s as [|c s IH]; intros [|c' s']; simpl; try done.
  intros [Hc Hs]. by rewrite (upper_ascii_same_letter _ _ Hc), (IH _ Hs).
Qed.

Lemma upper_app a b : upper (a +:+ b) = upper a +:+ upper b.
Proof. induction a as [|c a IH]; simpl; [done | by rewrite IH]. Qed.

Lemma starts_with_app p s : starts_with p (p +:+ s) = true.
Proof.
  induction p as [|c p IH]; simpl; [done |].
  by rewrite decide_True.
Qed.

Lemma occurs_in_app p s : occurs_in p (p +:+ s) = true.
Proof. destruct p; simpl; [by destruct s|]. by rewrite decide_True, starts_with_app. Qed.

Lemma mentions_prefix phrase head rest :
  upper head = upper phrase → mentions phrase (head +:+ rest) = true.
Proof. intros H. unfold mentions. rewrite upper_app, H. apply occurs_in_app. Qed.

(** ** Dict comprehensions and [defaultdict(set)] loops *)

Section Comprehension.
Context {A V : Type} (key : A → string) (val : A → V) (cond : A → bool).

Lemma lookup_comprehension_from (m0 : gmap string V) l k :
  foldl (λ m e, if cond e then <[key e := val e]> m else m) m0 l !! k =
  match last (writers key cond k l) with
  | Some e => Some (val e)
  | None => m0 !! k
  end.
Proof.
  revert m0. induction l as [|x l IH]; intros m0; simpl; [done |].
  rewrite IH. unfold writers. rewrite filter_cons.
  destruct (decide (cond x = true ∧ key x = k)) as [[Hc Hk] | Hn].
  - rewrite last_cons. destruct (last _); [done |].
    by rewrite Hc, <- Hk, lookup_insert_eq.
  - destruct (last _); [done |].
    destruct (cond x) eqn:Hc; [| done].
    rewrite lookup_insert_ne; [done |]. intros Hk. by apply Hn.
Qed.

(** A dict comprehension maps [k] to the value of the last entry that
    writes to [k]. *)
Lemma lookup_comprehension l k :
  foldl (λ m e, if cond e then <[key e := val e]> m else m) (∅ : gmap string V) l !! k =
  val <$> last (writers key cond k l).
Proof.
  rewrite lookup_comprehension_from, lookup_empty. by destruct (last _).
Qed.

End Comprehension.

Section Writers.
Context {A : Type} (key : A → string) (cond : A → bool).

Lemma last_writer l k e :
  last (writers key cond k l) = Some e → e ∈ l ∧ cond e = true ∧ key e = k.
Proof.
  intros H. apply last_Some_elem_of in H.
  unfold writers in H. apply list_elem_of_filter in H. naive_solver.
Qed.

Lemma some_writer l k e :
  e ∈ l → cond e = true → key e = k → is_Some (last (writers key cond k l)).
Proof.
  intros He Hc Hk.
  assert (e ∈ writers key cond k l) as Hw by (apply list_elem_of_filter; done).
  destruct (writers key cond k l) as [|y w] using rev_ind; [by apply elem_of_nil in Hw |].
  rewrite last_snoc. eauto.
Qed.

Lemma no_writer l k :
  (∀ e, e ∈ l → cond e = true → key e ≠ k) → last (writers key cond k l) = None.
Proof.
  intros H. destruct (last (writers key cond k l)) as [e|] eqn:He; [| done].
  apply last_writer in He as (? & ? & ?). naive_solver.
Qed.

End Writers.

Section SetLoop.
Context {A : Type} (key val : A → string).

Lemma lookup_add_to d k v k' :
  default ∅ (DefaultDict.add_to d k v !! k') =
  if decide (k = k') then default ∅ (d !! k') ∪ {[v]} else default ∅ (d !! k').
Proof.
  unfold DefaultDict.add_to, DefaultDict.getitem.
  destruct (decide (k = k')) as [<- | Hne].
  - destruct (d !! k) eqn:Hd; simpl; rewrite lookup_insert_eq; simpl; done.
  - destruct (d !! k) eqn:Hd; simpl; rewrite !lookup_insert_ne by done; done.
Qed.

Lemma lookup_set_loop_from d0 l k :
  default ∅ (foldl (λ d e, DefaultDict.add_to d (key e) (val e)) d0 l !! k) =
  default ∅ (d0 !! k) ∪ list_to_set (val <$> filter (λ e, key e = k) l).
Proof.
  revert d0. induction l as [|x l IH]; intros d0; simpl.
  - set_solver.
  - rewrite IH, lookup_add_to, filter_cons.
    destruct (decide (key x = k)); simpl; set_solver.
Qed.

(** After the loop, key [k] holds the values of the entries with key
    [k] (and reads as the empty set when there is none). *)
Lemma lookup_set_loop l k :
  default ∅ (foldl (λ d e, DefaultDict.add_to d (key e) (val e)) ∅ l !! k) =
  list_to_set (val <$> filter (λ e, key e = k) l).
Proof. rewrite lookup_set_loop_from, lookup_empty. set_solver. Qed.

End SetLoop.

(** ** What the tables hold *)

Section Tables.
Variable data : list json_entry.
#[local] Abbreviation entries := (FxCodes.json_data data).

Lemma get_isos_default d k :
  FxCodes.get_currency_isos_from_country d k = default ∅ (d !! upper k).
Proof. unfold FxCodes.get_currency_isos_from_country, DefaultDict.get. by destruct (d !! _). Qed.

Lemma get_countries_default d k :
  FxCodes.get_countries_from_currency_iso d k = default ∅ (d !! upper k).
Proof. unfold FxCodes.get_countries_from_currency_iso, DefaultDict.get. by destruct (d !! _). Qed.

(** The codes of a country are the codes of the retained entries whose
    country is that country, letter case apart. *)
Lemma elem_of_currency_isos_from_country k c :
  c ∈ FxCodes.currency_isos_from_country data k ↔
  ∃ e, e ∈ entries ∧ upper (country e) = upper k ∧ currency_iso e = c.
Proof.
  unfold FxCodes.currency_isos_from_country, FxCodes.country_to_currency_isos_map.
  rewrite get_isos_default.
  pose proof (lookup_set_loop (λ e, upper (country e)) currency_iso entries (upper k)) as ->.
  rewrite elem_of_list_to_set, list_elem_of_fmap.
  split.
  - intros (e & -> & He). apply list_elem_of_filter in He as [? ?]. eauto.
  - intros (e & He & Hk & <-). exists e. split; [done |]. by apply list_elem_of_filter.
Qed.

(** The countries of a code are the countries of the retained entries
    that carry the upper-cased code. *)
Lemma elem_of_countries_from_currency_iso c x :
  x ∈ FxCodes.countries_from_currency_iso data c ↔
  ∃ e, e ∈ entries ∧ currency_iso e = upper c ∧ country e = x.
Proof.
  unfold FxCodes.countries_from_currency_iso, FxCodes.currency_iso_to_countries_map.
  rewrite get_countries_default.
  pose proof (lookup_set_loop currency_iso country entries (upper c)) as ->.
  rewrite elem_of_list_to_set, list_elem_of_fmap.
  split.
  - intros (e & -> & He). apply list_elem_of_filter in He as [? ?]. eauto.
  - intros (e & He & Hk & <-). exists e. split; [done |]. by apply list_elem_of_filter.
Qed.

Lemma lookup_primary k :
  FxCodes.country_to_primary_currency_iso_map entries !! k =
  currency_iso <$> last (writers (λ e, upper (country e)) (λ e, truthy (main_flag e)) k entries).
Proof.
  exact (lookup_comprehension (λ e, upper (country e)) currency_iso
           (λ e, truthy (main_flag e)) entries k).
Qed.

Lemma lookup_owner k :
  FxCodes.currency_iso_to_owner_country_map entries !! k =
  country <$> last (writers currency_iso (λ e, truthy (owner_flag e)) k entries).
Proof.
  exact (lookup_comprehension currency_iso country (λ e, truthy (owner_flag e)) entries k).
Qed.

Lemma lookup_currency_iso_to_currency k :
  FxCodes.currency_iso_to_currency_map entries !! k =
  currency <$> last (writers currency_iso (λ _, true) k entries).
Proof. exact (lookup_comprehension currency_iso currency (λ _, true) entries k). Qed.

Lemma lookup_currency_to_currency_iso k :
  FxCodes.currency_to_currency_iso_map entries !! k =
  currency_iso <$> last (writers (λ e, upper (currency e)) (λ _, true) k entries).
Proof.
  exact (lookup_comprehension (λ e, upper (currency e)) currency_iso (λ _, true) entries k).
Qed.

End Tables.

(** ** [next(iter(s))] *)

Lemma next_iter_singleton x : FxCodes.next_iter {[x]} = Return (Some x).
Proof. unfold FxCodes.next_iter. by rewrite elements_singleton. Qed.

Lemma size_one_singleton (s : gset string) : size s = 1 → ∃ x, s = {[x]}.
Proof.
  intros H. apply size_1_elem_of in H as [x Hx]. exists x. by apply leibniz_equiv.
Qed.

Lemma size_cases (s : gset string) :
  (s = ∅ ∧ size s = 0) ∨ (∃ x, s = {[x]} ∧ size s = 1) ∨ (2 ≤ size s)%nat.
Proof.
  destruct (size s) as [|[|n]] eqn:Hs.
  - left. split; [| done]. by apply size_empty_inv, leibniz_equiv in Hs.
  - right; left. destruct (size_one_singleton s Hs) as [x ->]. eauto.
  - right; right. lia.
Qed.

(** ** The two disambiguating lookups *)

Lemma primary_lookup_record data k p :
  FxCodes.country_to_primary_currency_iso_map (FxCodes.json_data data) !! upper k = Some p →
  ∃ e, primary_record (FxCodes.json_data data) k e ∧ currency_iso e = p.
Proof.
  rewrite lookup_primary. destruct (last _) as [e|] eqn:He; [| done].
  intros [= <-]. apply last_writer in He as (? & ? & ?). by exists e.
Qed.

Lemma primary_lookup_none data k :
  FxCodes.country_to_primary_currency_iso_map (FxCodes.json_data data) !! upper k = None →
  ∀ e, ¬ primary_record (FxCodes.json_data data) k e.
Proof.
  rewrite lookup_primary. intros H e (He & Ht & Hk).
  destruct (some_writer (λ e, upper (country e)) (λ e, truthy (main_flag e))
              (FxCodes.json_data data) (upper k) e He Ht Hk) as [w Hw].
  by rewrite Hw in H.
Qed.

Lemma owner_lookup_record data c x :
  FxCodes.currency_iso_to_owner_country_map (FxCodes.json_data data) !! upper c = Some x →
  ∃ e, owner_record (FxCodes.json_data data) c e ∧ country e = x.
Proof.
  rewrite lookup_owner. destruct (last _) as [e|] eqn:He; [| done].
  intros [= <-]. apply last_writer in He as (? & ? & ?). by exists e.
Qed.

Lemma owner_lookup_none data c :
  FxCodes.currency_iso_to_owner_country_map (FxCodes.json_data data) !! upper c = None →
  ∀ e, ¬ owner_record (FxCodes.json_data data) c e.
Proof.
  rewrite lookup_owner. intros H e (He & Ht & Hk).
  destruct (some_writer currency_iso (λ e, truthy (owner_flag e))
              (FxCodes.json_data data) (upper c) e He Ht Hk) as [w Hw].
  by rewrite Hw in H.
Qed.

Lemma size_two_tests (n : nat) : (2 ≤ n)%nat → (n =? 0)%nat = false ∧ (n =? 1)%nat = false.
Proof. intros H. split; apply Nat.eqb_neq; lia. Qed.

(** C1, as the code has it.  [currency_iso_from_country] (the spec's
    [primary_iso_for_country]): no code for the country gives [None];
    exactly one code gives that code; with two or more codes it gives
    the code of an entry flagged as primary for the country when there
    is one, and otherwise raises [FxCodesException], the one failure
    class of the module, with the message
    [No unique currency ISO for country ISO '{country}' possibilities: {set}],
    made of the country as given and the whole set of codes as Python
    prints it.  The tests are made in this order. *)
Theorem currency_iso_from_country_cases (repr_set : gset string → string)
    (data : list json_entry) (k : string) :
  let isos := FxCodes.currency_isos_from_country data k in
  let r := FxCodes.currency_iso_from_country repr_set data k in
  (isos = ∅ → r = Return None) ∧
  (∀ c, isos = {[c]} → r = Return (Some c)) ∧
  ((2 ≤ size isos)%nat →
   (∃ e, primary_record (FxCodes.json_data data) k e) →
   ∃ e, primary_record (FxCodes.json_data data) k e ∧ r = Return (Some (currency_iso e))) ∧
  ((2 ≤ size isos)%nat →
   (∀ e, ¬ primary_record (FxCodes.json_data data) k e) →
   r = Raise (Exn FxCodesException
                ("No unique currency ISO for country ISO '" +:+ k +:+ "' possibilities: "
                   +:+ repr_set isos))).
Proof.
  intros isos r. subst r. unfold FxCodes.currency_iso_from_country. fold isos.
  repeat split.
  - intros ->. by rewrite size_empty.
  - intros c ->. rewrite size_singleton. simpl. apply next_iter_singleton.
  - intros Hsz [e0 He0]. destruct (size_two_tests _ Hsz) as [-> ->].
    destruct (_ !! upper k) as [p|] eqn:Hp.
    + apply primary_lookup_record in Hp as (e & He & <-). by exists e.
    + exfalso. by apply (primary_lookup_none _ _ Hp e0).
  - intros Hsz Hno. destruct (size_two_tests _ Hsz) as [-> ->].
    destruct (_ !! upper k) as [p|] eqn:Hp; [| done].
    apply primary_lookup_record in Hp as (e & He & _). by destruct (Hno e).
Qed.

Lemma currency_iso_from_country_cases_witness :
  FxCodes.currency_iso_from_country Sample.repr_set Sample.data "zz" = Return None
  ∧ FxCodes.currency_iso_from_country Sample.repr_set Sample.data "ch" = Return (Some "CHF")
  ∧ (∃ e, primary_record (FxCodes.json_data Sample.data) "cu" e
          ∧ FxCodes.currency_iso_from_country Sample.repr_set Sample.data "cu"
            = Return (Some (currency_iso e)))
  ∧ FxCodes.currency_iso_from_country Sample.repr_set Sample.data "bt"
    = Raise (Exn FxCodesException
               ("No unique currency ISO for country ISO 'bt' possibilities: "
                  +:+ Sample.repr_set {[ "BTN"; "INR" ]})).
Proof.
  split; [| split; [| split]].
  - apply (currency_iso_from_country_cases Sample.repr_set Sample.data "zz").
    vm_compute. reflexivity.
  - apply (currency_iso_from_country_cases Sample.repr_set Sample.data "ch").
    vm_compute. reflexivity.
  - apply (currency_iso_from_country_cases Sample.repr_set Sample.data "cu").
    + vm_compute. lia.
    + exists (Entry "CU" "Cuban Peso" "CUP" JNull (JBool true)).
      split; [| split; reflexivity].
      vm_compute. do 5 apply list_elem_of_further. apply list_elem_of_here.
  - change ({[ "BTN"; "INR" ]} : gset string)
      with (FxCodes.currency_isos_from_country Sample.data "bt").
    apply (currency_iso_from_country_cases Sample.repr_set Sample.data "bt").
    + vm_compute. lia.
    + intros e (He & Ht & Hk). vm_compute in He.
      repeat (apply elem_of_cons in He as [-> | He]; [by vm_compute in Ht, Hk |]).
      by apply elem_of_nil in He.
Defined.

(** C1, as stated, fails in what the failure is: its class is not one
    of its own.  On the sample data a handler for the class raised for
    the ambiguous country [bt] also catches the failure of the owner
    lookup for [eur]. *)
Lemma currency_failure_class_is_shared :
  ¬ currency_failure_has_own_class Sample.repr_set Sample.data.
Proof.
  intros H.
  assert (FxCodes.currency_iso_from_country Sample.repr_set Sample.data "bt" = Raise _) as Hbt
    by (vm_compute; reflexivity).
  specialize (H "bt" _ Hbt "eur"). vm_compute in H. discriminate H.
Qed.

Lemma next_iter_size_one (s : gset string) :
  size s = 1 → ∃ x, s = {[x]} ∧ FxCodes.next_iter s = Return (Some x).
Proof.
  intros H. destruct (size_one_singleton s H) as [x ->].
  exists x. split; [done | apply next_iter_singleton].
Qed.

(** [country_from_currency_iso], branch by branch.  The owner is
    returned only when its country is not the empty text: the test on
    the owner is a truth test. *)
Lemma country_from_currency_iso_cases (repr_set : gset string → string)
    (data : list json_entry) (c : string) :
  let users := FxCodes.countries_from_currency_iso data c in
  let r := FxCodes.country_from_currency_iso repr_set data c in
  (users = ∅ → r = Return None) ∧
  (∀ x, users = {[x]} → r = Return (Some x)) ∧
  ((2 ≤ size users)%nat →
   ∀ x, FxCodes.currency_iso_to_owner_country_map (FxCodes.json_data data) !! upper c = Some x →
        x ≠ "" →
        (∃ e, owner_record (FxCodes.json_data data) c e ∧ country e = x)
        ∧ r = Return (Some x)) ∧
  ((2 ≤ size users)%nat →
   (∀ e, ¬ owner_record (FxCodes.json_data data) c e) →
   r = Raise (Exn FxCodesException (FxCodes.owner_message repr_set c users))).
Proof.
  intros users r. subst r. unfold FxCodes.country_from_currency_iso. fold users.
  split; [| split; [| split]].
  - intros ->. by rewrite size_empty.
  - intros x ->. rewrite size_singleton. simpl. apply next_iter_singleton.
  - intros Hsz x Hx Hne. split; [by apply owner_lookup_record |].
    destruct (size_two_tests _ Hsz) as [-> ->]. rewrite Hx. simpl.
    by rewrite bool_decide_false.
  - intros Hsz Hno. destruct (size_two_tests _ Hsz) as [-> ->].
    destruct (_ !! upper c) as [x|] eqn:Hx; [| done].
    apply owner_lookup_record in Hx as (e & He & _). by destruct (Hno e).
Qed.

(** C2. [country_from_currency_iso] (the spec's
    [owner_country_for_iso]) on the data file [Faulty.blank_owner]:
    two countries use [EUR], an entry flagged as owner exists for it,
    and the call raises instead of returning that entry's country,
    because the country is the empty text. *)
Theorem country_from_currency_iso_blank_owner :
  owner_record (FxCodes.json_data Faulty.blank_owner) "EUR"
    (Entry "" "Euro" "EUR" (JBool true) JNull)
  ∧ FxCodes.countries_from_currency_iso Faulty.blank_owner "EUR" = {[ ""; "FR" ]}
  ∧ FxCodes.currency_iso_to_owner_country_map (FxCodes.json_data Faulty.blank_owner)
      !! upper "EUR" = Some ""
  ∧ ∀ repr_set,
      FxCodes.country_from_currency_iso repr_set Faulty.blank_owner "EUR"
      = Raise (Exn FxCodesException (FxCodes.owner_message repr_set "EUR" {[ ""; "FR" ]})).
Proof.
  split; [| split; [| split]].
  - split; [| done]. vm_compute. apply list_elem_of_here.
  - by vm_compute.
  - by vm_compute.
  - intros repr_set. by vm_compute.
Qed.

(** The sibling lookup on the mirrored data returns the flagged code. *)
Example currency_iso_from_country_blank_primary :
  ∀ repr_set,
    FxCodes.currency_iso_from_country repr_set
      [ JsonEntry "FR" "Nothing" (CodeText "") None (Some (JBool true));
        JsonEntry "FR" "Euro" (CodeText "EUR") None None ] "FR"
    = Return (Some "").
Proof. intros repr_set. by vm_compute. Qed.

(** ** The failures *)

Lemma messages_differ repr_set k s c s' :
  FxCodes.currency_message repr_set k s ≠ FxCodes.owner_message repr_set c s'.
Proof. unfold FxCodes.currency_message, FxCodes.owner_message. simpl. discriminate. Qed.

Lemma currency_iso_from_country_raise repr_set data k e :
  FxCodes.currency_iso_from_country repr_set data k = Raise e →
  e = Exn FxCodesException
        (FxCodes.currency_message repr_set k (FxCodes.currency_isos_from_country data k)).
Proof.
  unfold FxCodes.currency_iso_from_country.
  destruct (size_cases (FxCodes.currency_isos_from_country data k))
    as [[-> ->] | [(x & -> & ->) | Hsz]]; simpl; [done | |].
  - by rewrite next_iter_singleton.
  - destruct (size_two_tests _ Hsz) as [-> ->].
    destruct (_ !! upper k); [done |]. by intros [= <-].
Qed.

Lemma country_from_currency_iso_raise repr_set data c e :
  FxCodes.country_from_currency_iso repr_set data c = Raise e →
  e = Exn FxCodesException
        (FxCodes.owner_message repr_set c (FxCodes.countries_from_currency_iso data c)).
Proof.
  unfold FxCodes.country_from_currency_iso.
  destruct (size_cases (FxCodes.countries_from_currency_iso data c))
    as [[-> ->] | [(x & -> & ->) | Hsz]]; simpl; [done | |].
  - by rewrite next_iter_singleton.
  - destruct (size_two_tests _ Hsz) as [-> ->].
    destruct (truthy_opt _); [done |]. by intros [= <-].
Qed.

(** C3, as the code has it.  Both ambiguity failures are raised with
    the one class [FxCodesException]; what tells them apart is the
    text of the message, which is built from the key as given and the
    printed set of candidates; and a failure is not the [None] that
    means not found. *)
Theorem ambiguity_failures (repr_set : gset string → string) (data : list json_entry) :
  (∀ k e, FxCodes.currency_iso_from_country repr_set data k = Raise e →
          exn_cls e = FxCodesException
          ∧ exn_message e
            = "No unique currency ISO for country ISO '" +:+ k +:+ "' possibilities: "
                +:+ repr_set (FxCodes.currency_isos_from_country data k)
          ∧ FxCodes.currency_iso_from_country repr_set data k ≠ Return None) ∧
  (∀ c e, FxCodes.country_from_currency_iso repr_set data c = Raise e →
          exn_cls e = FxCodesException
          ∧ exn_message e
            = "No unique ownership for ISO '" +:+ c +:+ "' used by: "
                +:+ repr_set (FxCodes.countries_from_currency_iso data c)
          ∧ FxCodes.country_from_currency_iso repr_set data c ≠ Return None) ∧
  (∀ k c e1 e2,
      FxCodes.currency_iso_from_country repr_set data k = Raise e1 →
      FxCodes.country_from_currency_iso repr_set data c = Raise e2 →
      exn_cls e1 = exn_cls e2 ∧ exn_message e1 ≠ exn_message e2).
Proof.
  split; [| split].
  - intros k e H. split; [| split].
    + by apply currency_iso_from_country_raise in H as ->.
    + by apply currency_iso_from_country_raise in H as ->.
    + by rewrite H.
  - intros c e H. split; [| split].
    + by apply country_from_currency_iso_raise in H as ->.
    + by apply country_from_currency_iso_raise in H as ->.
    + by rewrite H.
  - intros k c e1 e2 H1 H2.
    apply currency_iso_from_country_raise in H1 as ->.
    apply country_from_currency_iso_raise in H2 as ->.
    split; [done | apply messages_differ].
Qed.

Lemma ambiguity_failures_witness :
  ∃ e1 e2,
    FxCodes.currency_iso_from_country Sample.repr_set Sample.data "bt" = Raise e1
    ∧ FxCodes.country_from_currency_iso Sample.repr_set Sample.data "eur" = Raise e2
    ∧ exn_cls e1 = exn_cls e2 ∧ exn_message e1 ≠ exn_message e2.
Proof.
  eexists _, _.
  assert (FxCodes.currency_iso_from_country Sample.repr_set Sample.data "bt" = Raise _) as H1
    by (vm_compute; reflexivity).
  assert (FxCodes.country_from_currency_iso Sample.repr_set Sample.data "eur" = Raise _) as H2
    by (vm_compute; reflexivity).
  split; [exact H1 | split; [exact H2 |]].
  exact (proj2 (proj2 (ambiguity_failures Sample.repr_set Sample.data)) "bt" "eur" _ _ H1 H2).
Defined.

(** C3, as stated, fails: on the sample data the two failures have the
    same class. *)
Lemma failure_classes_not_distinct :
  ¬ distinct_failure_classes Sample.repr_set Sample.data.
Proof.
  intros H.
  refine (H "bt" "eur" _ _ _ _ _); [by vm_compute | by vm_compute | done].
Qed.

(** ** Loading *)

Lemma keep_Some e r :
  FxCodes.keep e = Some r ↔
  AlphabeticCode e = CodeText (currency_iso r) ∧ Entity e = country r
  ∧ Currency e = currency r ∧ get_flag (Owner e) = owner_flag r
  ∧ get_flag (Primary e) = main_flag r.
Proof.
  unfold FxCodes.keep. destruct e as [n c [| |s] o p], r as [n' c' s' o' p']; simpl;
    split; try done; try (by intros (? & _)).
  - intros [= -> -> -> -> ->]. done.
  - intros ([= ->] & -> & -> & -> & ->). done.
Qed.

(** C4, as the code has it.  [json_data] keeps exactly the objects
    whose [AlphabeticCode] is present and not [null], each with its
    code as that text; an object whose [AlphabeticCode] is missing or
    [null] is dropped.  The test is [is not None]: the empty text is a
    code like any other. *)
Theorem json_data_retains (data : list json_entry) :
  (∀ r, r ∈ FxCodes.json_data data ↔
        ∃ e, e ∈ data ∧ AlphabeticCode e = CodeText (currency_iso r)
             ∧ Entity e = country r ∧ Currency e = currency r
             ∧ get_flag (Owner e) = owner_flag r ∧ get_flag (Primary e) = main_flag r) ∧
  (∀ e, AlphabeticCode e = CodeMissing ∨ AlphabeticCode e = CodeNull →
        FxCodes.json_data (e :: data) = FxCodes.json_data data) ∧
  (∀ e s, AlphabeticCode e = CodeText s →
        FxCodes.json_data (e :: data)
        = Entry (Entity e) (Currency e) s (get_flag (Owner e)) (get_flag (Primary e))
            :: FxCodes.json_data data).
Proof.
  split; [| split].
  - intros r. unfold FxCodes.json_data. rewrite list_elem_of_omap.
    split; intros (e & He & H); exists e; (split; [done |]); by apply keep_Some.
  - intros e [H | H]; unfold FxCodes.json_data, FxCodes.keep; simpl; by rewrite H.
  - intros e s H. unfold FxCodes.json_data, FxCodes.keep. simpl. by rewrite H.
Qed.

Lemma json_data_retains_witness :
  FxCodes.json_data (JsonEntry "ANTARCTICA" "No universal currency" CodeMissing None None
                       :: Faulty.small_code)
  = FxCodes.json_data Faulty.small_code
  ∧ FxCodes.json_data (JsonEntry "FR" "Euro" (CodeText "EUR") None None :: Faulty.small_code)
    = Entry "FR" "Euro" "EUR" JNull JNull :: FxCodes.json_data Faulty.small_code.
Proof.
  split.
  - apply (json_data_retains Faulty.small_code). left. reflexivity.
  - apply (proj2 (proj2 (json_data_retains Faulty.small_code))
             (JsonEntry "FR" "Euro" (CodeText "EUR") None None) "EUR").
    reflexivity.
Defined.

(** C4, as stated, fails: an entry whose code is the empty text is
    retained. *)
Lemma json_data_keeps_blank_code :
  ¬ codes_non_empty (FxCodes.json_data Faulty.blank_code).
Proof.
  intros H. apply (H (Entry "NOWHERE" "Nothing" "" JNull JNull)); [| done].
  vm_compute. apply list_elem_of_here.
Qed.

(** ** Letter case *)

(** C5, as the code has it.  Every lookup upper-cases its key before
    it reads a table, and that is all it does with letter case.  So two
    keys with the same upper-cased form get the same answer, whatever
    the data file: the four plain lookups return the same value; the
    two disambiguating lookups return the same value, or both fail
    with the same class and the same candidate set, each message
    quoting the key as it was given. *)
Theorem lookups_agree_on_upper (repr_set : gset string → string) (data : list json_entry)
    (s s' : string) :
  upper s = upper s' →
  FxCodes.currency_from_currency_iso data s = FxCodes.currency_from_currency_iso data s'
  ∧ FxCodes.currency_iso_from_currency data s = FxCodes.currency_iso_from_currency data s'
  ∧ FxCodes.currency_isos_from_country data s = FxCodes.currency_isos_from_country data s'
  ∧ FxCodes.countries_from_currency_iso data s = FxCodes.countries_from_currency_iso data s'
  ∧ (∀ v, FxCodes.currency_iso_from_country repr_set data s = Return v →
          FxCodes.currency_iso_from_country repr_set data s' = Return v)
  ∧ (∀ e, FxCodes.currency_iso_from_country repr_set data s = Raise e →
          e = Exn FxCodesException
                ("No unique currency ISO for country ISO '" +:+ s +:+ "' possibilities: "
                   +:+ repr_set (FxCodes.currency_isos_from_country data s))
          ∧ FxCodes.currency_iso_from_country repr_set data s'
            = Raise (Exn FxCodesException
                       ("No unique currency ISO for country ISO '" +:+ s'
                          +:+ "' possibilities: "
                          +:+ repr_set (FxCodes.currency_isos_from_country data s))))
  ∧ (∀ v, FxCodes.country_from_currency_iso repr_set data s = Return v →
          FxCodes.country_from_currency_iso repr_set data s' = Return v)
  ∧ (∀ e, FxCodes.country_from_currency_iso repr_set data s = Raise e →
          e = Exn FxCodesException
                ("No unique ownership for ISO '" +:+ s +:+ "' used by: "
                   +:+ repr_set (FxCodes.countries_from_currency_iso data s))
          ∧ FxCodes.country_from_currency_iso repr_set data s'
            = Raise (Exn FxCodesException
                       ("No unique ownership for ISO '" +:+ s' +:+ "' used by: "
                          +:+ repr_set (FxCodes.countries_from_currency_iso data s)))).
Proof.
  intros Hv.
  assert (FxCodes.currency_isos_from_country data s
          = FxCodes.currency_isos_from_country data s') as Hisos.
  { unfold FxCodes.currency_isos_from_country, FxCodes.get_currency_isos_from_country.
    by rewrite Hv. }
  assert (FxCodes.countries_from_currency_iso data s
          = FxCodes.countries_from_currency_iso data s') as Hcs.
  { unfold FxCodes.countries_from_currency_iso, FxCodes.get_countries_from_currency_iso.
    by rewrite Hv. }
  split; [| split; [| split; [| split; [| split; [| split; [| split]]]]]]; try done.
  - unfold FxCodes.currency_from_currency_iso, FxCodes.get_currency_from_currency_iso.
    by rewrite Hv.
  - unfold FxCodes.currency_iso_from_currency, FxCodes.get_currency_iso_from_currency.
    by rewrite Hv.
  - intros v. unfold FxCodes.currency_iso_from_country. rewrite <- Hisos, <- Hv.
    repeat case_match; done.
  - intros e He. pose proof (currency_iso_from_country_raise _ _ _ _ He) as ->.
    split; [done |]. revert He.
    unfold FxCodes.currency_iso_from_country. rewrite <- Hisos, <- Hv.
    destruct (size_cases (FxCodes.currency_isos_from_country data s))
      as [[_ ->] | [(x & Hx & ->) | Hsz]]; simpl; [done | |].
    + by rewrite Hx, next_iter_singleton.
    + destruct (size_two_tests _ Hsz) as [-> ->]. by destruct (_ !! upper s).
  - intros v. unfold FxCodes.country_from_currency_iso. rewrite <- Hcs, <- Hv.
    repeat case_match; done.
  - intros e He. pose proof (country_from_currency_iso_raise _ _ _ _ He) as ->.
    split; [done |]. revert He.
    unfold FxCodes.country_from_currency_iso. rewrite <- Hcs, <- Hv.
    destruct (size_cases (FxCodes.countries_from_currency_iso data s))
      as [[_ ->] | [(x & Hx & ->) | Hsz]]; simpl; [done | |].
    + by rewrite Hx, next_iter_singleton.
    + destruct (size_two_tests _ Hsz) as [-> ->]. by destruct (truthy_opt _).
Qed.

Lemma lookups_agree_on_upper_witness :
  FxCodes.currency_from_currency_iso Sample.data "usd"
  = FxCodes.currency_from_currency_iso Sample.data "USD"
  ∧ FxCodes.currency_from_currency_iso Sample.data "Usd"
    = FxCodes.currency_from_currency_iso Sample.data "USD"
  ∧ FxCodes.currency_from_currency_iso Sample.data "USD" = Some "US Dollar"
  ∧ FxCodes.currency_iso_from_country Sample.repr_set Sample.data "BT"
    = Raise (Exn FxCodesException
               ("No unique currency ISO for country ISO 'BT' possibilities: "
                  +:+ Sample.repr_set (FxCodes.currency_isos_from_country Sample.data "bt"))).
Proof.
  split; [| split; [| split]].
  - apply (lookups_agree_on_upper Sample.repr_set Sample.data "usd" "USD"). reflexivity.
  - apply (lookups_agree_on_upper Sample.repr_set Sample.data "Usd" "USD"). reflexivity.
  - by vm_compute.
  - refine (proj2 (proj1 (proj2 (proj2 (proj2 (proj2 (proj2
              (lookups_agree_on_upper Sample.repr_set Sample.data "bt" "BT" eq_refl))))))
              _ _)).
    by vm_compute.
Defined.

(** C5, as stated, fails for the two disambiguating lookups: [bt] and
    [BT] differ only in letter case, and the country lookup fails for
    both, with messages that differ in the key they quote. *)
Lemma casing_variants_fail_differently :
  casing_variant "bt" "BT"
  ∧ ∀ repr_set,
      FxCodes.currency_iso_from_country repr_set Sample.data "bt"
      ≠ FxCodes.currency_iso_from_country repr_set Sample.data "BT".
Proof.
  split.
  - repeat split; right; right; vm_compute; lia.
  - intros repr_set H. vm_compute in H. discriminate H.
Qed.

(** ** Code to name and back *)

Lemma elem_of_currency_iso_codes entries c :
  c ∈ FxCodes.currency_iso_codes entries ↔ ∃ e, e ∈ entries ∧ currency_iso e = c.
Proof.
  unfold FxCodes.currency_iso_codes. rewrite elem_of_list_to_set, list_elem_of_fmap.
  naive_solver.
Qed.




Example shared_name_round_trip :
  FxCodes.currency_from_currency_iso Faulty.shared_name "VES" = Some "Bolivar Soberano"
  ∧ FxCodes.currency_iso_from_currency Faulty.shared_name "Bolivar Soberano" = Some "VED".
Proof. by vm_compute. Qed.

(** ** The object and its cache *)

Ltac unfold_lazy :=
  cbv [Lazy.currency_to_currency_iso_map Lazy.currency_iso_to_currency_map
       Lazy.country_to_currency_isos_map Lazy.currency_iso_to_countries_map
       Lazy.currency_iso_to_owner_country_map Lazy.country_to_primary_currency_iso_map
       Lazy.json_data Lazy.cached_property Lazy.bind Lazy.ret
       Lazy.store_json_data Lazy.store_currency_to_currency_iso_map
       Lazy.store_currency_iso_to_currency_map Lazy.store_country_to_currency_isos_map
       Lazy.store_currency_iso_to_countries_map Lazy.store_currency_iso_to_owner_country_map
       Lazy.store_country_to_primary_currency_iso_map
       Lazy.coherent Lazy.tables_kept Lazy.kept
       Lazy.data_file_contents Lazy.slot_json_data Lazy.slot_currency_to_currency_iso_map
       Lazy.slot_currency_iso_to_currency_map Lazy.slot_country_to_currency_isos_map
       Lazy.slot_currency_iso_to_countries_map Lazy.slot_currency_iso_to_owner_country_map
       Lazy.slot_country_to_primary_currency_iso_map] in *.

Ltac use_slots :=
  repeat match goal with
    | H : _ ∧ _ |- _ => destruct H as [? H]
    | H : Lazy.slot_ok (Some _) _ |- _ =>
        destruct H as [H | H]; [discriminate H | injection H as H; subst]
    | H : Lazy.slot_ok None _ |- _ => clear H
    end.

Ltac slots_done :=
  repeat split;
  first [ assumption | reflexivity | by left | by right ].

Ltac accessor_spec :=
  unfold_lazy; eexists _, _;
  (split; [reflexivity |]);
  (split; [slots_done |]);
  (split; [reflexivity |]);
  intros Hcoh; use_slots; slots_done.

(** Reading a property: it returns, fills its slot with what it
    returns, changes no slot that was filled, and on a coherent object
    returns the table of the data file and leaves the object coherent. *)
Lemma read_currency_to_currency_iso_map σ :
  ∃ v σ', Lazy.currency_to_currency_iso_map σ = (Return v, σ')
    ∧ Lazy.tables_kept σ σ'
    ∧ Lazy.slot_currency_to_currency_iso_map σ' = Some v
    ∧ (Lazy.coherent σ →
       Lazy.coherent σ'
       ∧ v = FxCodes.currency_to_currency_iso_map
               (FxCodes.json_data (Lazy.data_file_contents σ))).
Proof. destruct σ as [d [j|] [x|] b c e f g]; accessor_spec. Qed.

Lemma read_currency_iso_to_currency_map σ :
  ∃ v σ', Lazy.currency_iso_to_currency_map σ = (Return v, σ')
    ∧ Lazy.tables_kept σ σ'
    ∧ Lazy.slot_currency_iso_to_currency_map σ' = Some v
    ∧ (Lazy.coherent σ →
       Lazy.coherent σ'
       ∧ v = FxCodes.currency_iso_to_currency_map
               (FxCodes.json_data (Lazy.data_file_contents σ))).
Proof. destruct σ as [d [j|] a [x|] c e f g]; accessor_spec. Qed.

Lemma read_country_to_currency_isos_map σ :
  ∃ v σ', Lazy.country_to_currency_isos_map σ = (Return v, σ')
    ∧ Lazy.tables_kept σ σ'
    ∧ Lazy.slot_country_to_currency_isos_map σ' = Some v
    ∧ (Lazy.coherent σ →
       Lazy.coherent σ'
       ∧ v = FxCodes.country_to_currency_isos_map
               (FxCodes.json_data (Lazy.data_file_contents σ))).
Proof. destruct σ as [d [j|] a b [x|] e f g]; accessor_spec. Qed.

Lemma read_currency_iso_to_countries_map σ :
  ∃ v σ', Lazy.currency_iso_to_countries_map σ = (Return v, σ')
    ∧ Lazy.tables_kept σ σ'
    ∧ Lazy.slot_currency_iso_to_countries_map σ' = Some v
    ∧ (Lazy.coherent σ →
       Lazy.coherent σ'
       ∧ v = FxCodes.currency_iso_to_countries_map
               (FxCodes.json_data (Lazy.data_file_contents σ))).
Proof. destruct σ as [d [j|] a b c [x|] f g]; accessor_spec. Qed.

Lemma read_currency_iso_to_owner_country_map σ :
  ∃ v σ', Lazy.currency_iso_to_owner_country_map σ = (Return v, σ')
    ∧ Lazy.tables_kept σ σ'
    ∧ Lazy.slot_currency_iso_to_owner_country_map σ' = Some v
    ∧ (Lazy.coherent σ →
       Lazy.coherent σ'
       ∧ v = FxCodes.currency_iso_to_owner_country_map
               (FxCodes.json_data (Lazy.data_file_contents σ))).
Proof. destruct σ as [d [j|] a b c e [x|] g]; accessor_spec. Qed.

Lemma read_country_to_primary_currency_iso_map σ :
  ∃ v σ', Lazy.country_to_primary_currency_iso_map σ = (Return v, σ')
    ∧ Lazy.tables_kept σ σ'
    ∧ Lazy.slot_country_to_primary_currency_iso_map σ' = Some v
    ∧ (Lazy.coherent σ →
       Lazy.coherent σ'
       ∧ v = FxCodes.country_to_primary_currency_iso_map
               (FxCodes.json_data (Lazy.data_file_contents σ))).
Proof. destruct σ as [d [j|] a b c e f [x|]]; accessor_spec. Qed.

(** A filled slot is returned as it is. *)
Lemma cached_property_hit {A} slot store (body : Lazy.M A) σ v :
  slot σ = Some v → Lazy.cached_property slot store body σ = (Return v, σ).
Proof. intros H. unfold Lazy.cached_property. by rewrite H. Qed.

Lemma kept_trans {A} (x y z : option A) : Lazy.kept x y → Lazy.kept y z → Lazy.kept x z.
Proof.
  unfold Lazy.kept. intros [-> | ->] [-> | ->]; auto.
Qed.

Lemma tables_kept_trans σ1 σ2 σ3 :
  Lazy.tables_kept σ1 σ2 → Lazy.tables_kept σ2 σ3 → Lazy.tables_kept σ1 σ3.
Proof.
  unfold Lazy.tables_kept.
  intros (H0 & H1 & H2 & H3 & H4 & H5 & H6 & H7) (G0 & G1 & G2 & G3 & G4 & G5 & G6 & G7).
  repeat split; [congruence | eapply kept_trans; eassumption ..].
Qed.

Lemma kept_Some {A} (x y : option A) v : Lazy.kept x y → x = Some v → y = Some v.
Proof. intros [-> | ->]; done. Qed.

(** A lookup that reads one property and computes its answer from it. *)
Lemma one_table_lookup {A B} (slot : Lazy.fx_codes → option A) store body (f : A → B) σ :
  (∃ v σ', Lazy.cached_property slot store body σ = (Return v, σ')
           ∧ Lazy.tables_kept σ σ' ∧ slot σ' = Some v) →
  repeatable (Lazy.bind (Lazy.cached_property slot store body) (λ m, Lazy.ret (f m))) σ.
Proof.
  intros (v & σ' & Hrun & Hkept & Hslot). unfold repeatable, Lazy.bind, Lazy.ret.
  rewrite Hrun. simpl. split; [done |].
  by rewrite (cached_property_hit _ _ _ _ _ Hslot).
Qed.

Lemma currency_iso_from_currency_repeatable s σ :
  repeatable (Lazy.currency_iso_from_currency s) σ.
Proof.
  apply one_table_lookup.
  destruct (read_currency_to_currency_iso_map σ) as (v & σ' & ? & ? & ? & _). eauto.
Qed.

Lemma currency_from_currency_iso_repeatable s σ :
  repeatable (Lazy.currency_from_currency_iso s) σ.
Proof.
  apply one_table_lookup.
  destruct (read_currency_iso_to_currency_map σ) as (v & σ' & ? & ? & ? & _). eauto.
Qed.

Lemma currency_isos_from_country_repeatable s σ :
  repeatable (Lazy.currency_isos_from_country s) σ.
Proof.
  apply one_table_lookup.
  destruct (read_country_to_currency_isos_map σ) as (v & σ' & ? & ? & ? & _). eauto.
Qed.

Lemma countries_from_currency_iso_repeatable s σ :
  repeatable (Lazy.countries_from_currency_iso s) σ.
Proof.
  apply one_table_lookup.
  destruct (read_currency_iso_to_countries_map σ) as (v & σ' & ? & ? & ? & _). eauto.
Qed.

Lemma currency_iso_from_country_repeatable repr_set s σ :
  repeatable (Lazy.currency_iso_from_country repr_set s) σ.
Proof.
  destruct (read_country_to_currency_isos_map σ) as (d & σ1 & H1 & K1 & S1 & _).
  destruct (read_country_to_primary_currency_iso_map σ1) as (m & σ2 & H2 & K2 & S2 & _).
  assert (Lazy.slot_country_to_currency_isos_map σ2 = Some d) as S1'.
  { destruct K2 as (_ & _ & _ & _ & K & _). by apply (kept_Some _ _ _ K). }
  pose proof (cached_property_hit _ _ _ _ _ S1 : Lazy.country_to_currency_isos_map σ1 = _) as R1.
  pose proof (cached_property_hit _ _ _ _ _ S1' : Lazy.country_to_currency_isos_map σ2 = _) as R1'.
  pose proof (cached_property_hit _ _ _ _ _ S2
              : Lazy.country_to_primary_currency_iso_map σ2 = _) as R2.
  unfold repeatable, Lazy.currency_iso_from_country, Lazy.currency_isos_from_country,
    Lazy.bind, Lazy.ret, Lazy.lift, Lazy.raise.
  rewrite H1.
  destruct (size _ =? 0)%nat eqn:E0; [| destruct (size _ =? 1)%nat eqn:E1].
  - simpl. rewrite R1, E0. done.
  - simpl. rewrite R1, E0, E1. done.
  - rewrite H2.
    assert (Lazy.tables_kept σ σ2) by (by eapply tables_kept_trans).
    destruct (m !! upper s) eqn:Em; simpl; rewrite R1', E0, E1, R2, Em; done.
Qed.

Lemma country_from_currency_iso_repeatable repr_set s σ :
  repeatable (Lazy.country_from_currency_iso repr_set s) σ.
Proof.
  destruct (read_currency_iso_to_countries_map σ) as (d & σ1 & H1 & K1 & S1 & _).
  destruct (read_currency_iso_to_owner_country_map σ1) as (m & σ2 & H2 & K2 & S2 & _).
  assert (Lazy.slot_currency_iso_to_countries_map σ2 = Some d) as S1'.
  { destruct K2 as (_ & _ & _ & _ & _ & K & _). by apply (kept_Some _ _ _ K). }
  pose proof (cached_property_hit _ _ _ _ _ S1 : Lazy.currency_iso_to_countries_map σ1 = _) as R1.
  pose proof (cached_property_hit _ _ _ _ _ S1' : Lazy.currency_iso_to_countries_map σ2 = _) as R1'.
  pose proof (cached_property_hit _ _ _ _ _ S2
              : Lazy.currency_iso_to_owner_country_map σ2 = _) as R2.
  unfold repeatable, Lazy.country_from_currency_iso, Lazy.countries_from_currency_iso,
    Lazy.bind, Lazy.ret, Lazy.lift, Lazy.raise.
  rewrite H1.
  destruct (size _ =? 0)%nat eqn:E0; [| destruct (size _ =? 1)%nat eqn:E1].
  - simpl. rewrite R1, E0. done.
  - simpl. rewrite R1, E0, E1. done.
  - rewrite H2.
    assert (Lazy.tables_kept σ σ2) by (by eapply tables_kept_trans).
    destruct (truthy_opt (m !! upper s)) eqn:Em; simpl; rewrite R1', E0, E1, R2, Em; done.
Qed.

(** On a coherent object a lookup gives what the data file determines,
    and leaves the object coherent. *)
Lemma one_table_coherent {A B} (acc : Lazy.M A) (table : list entry → A) (f : A → B) σ :
  (∃ v σ', acc σ = (Return v, σ')
           ∧ (Lazy.coherent σ →
              Lazy.coherent σ' ∧ v = table (FxCodes.json_data (Lazy.data_file_contents σ)))) →
  raises (fst (Lazy.bind acc (λ m, Lazy.ret (f m)) σ)) = false
  ∧ (Lazy.coherent σ →
     fst (Lazy.bind acc (λ m, Lazy.ret (f m)) σ)
     = Return (f (table (FxCodes.json_data (Lazy.data_file_contents σ))))
     ∧ Lazy.coherent (snd (Lazy.bind acc (λ m, Lazy.ret (f m)) σ))).
Proof.
  intros (v & σ' & Hrun & Hcoh). unfold Lazy.bind, Lazy.ret. rewrite Hrun. simpl.
  split; [done |]. intros H. destruct (Hcoh H) as [? ->]. done.
Qed.

Lemma currency_iso_from_currency_coherent s σ :
  raises (fst (Lazy.currency_iso_from_currency s σ)) = false
  ∧ (Lazy.coherent σ →
     fst (Lazy.currency_iso_from_currency s σ)
     = Return (FxCodes.currency_iso_from_currency (Lazy.data_file_contents σ) s)
     ∧ Lazy.coherent (snd (Lazy.currency_iso_from_currency s σ))).
Proof.
  apply (one_table_coherent _ FxCodes.currency_to_currency_iso_map
           (λ m, FxCodes.get_currency_iso_from_currency m s)).
  destruct (read_currency_to_currency_iso_map σ) as (v & σ' & ? & _ & _ & ?). eauto.
Qed.

Lemma currency_from_currency_iso_coherent s σ :
  raises (fst (Lazy.currency_from_currency_iso s σ)) = false
  ∧ (Lazy.coherent σ →
     fst (Lazy.currency_from_currency_iso s σ)
     = Return (FxCodes.currency_from_currency_iso (Lazy.data_file_contents σ) s)
     ∧ Lazy.coherent (snd (Lazy.currency_from_currency_iso s σ))).
Proof.
  apply (one_table_coherent _ FxCodes.currency_iso_to_currency_map
           (λ m, FxCodes.get_currency_from_currency_iso m s)).
  destruct (read_currency_iso_to_currency_map σ) as (v & σ' & ? & _ & _ & ?). eauto.
Qed.

Lemma currency_isos_from_country_coherent s σ :
  raises (fst (Lazy.currency_isos_from_country s σ)) = false
  ∧ (Lazy.coherent σ →
     fst (Lazy.currency_isos_from_country s σ)
     = Return (FxCodes.currency_isos_from_country (Lazy.data_file_contents σ) s)
     ∧ Lazy.coherent (snd (Lazy.currency_isos_from_country s σ))).
Proof.
  apply (one_table_coherent _ FxCodes.country_to_currency_isos_map
           (λ m, FxCodes.get_currency_isos_from_country m s)).
  destruct (read_country_to_currency_isos_map σ) as (v & σ' & ? & _ & _ & ?). eauto.
Qed.

Lemma countries_from_currency_iso_coherent s σ :
  raises (fst (Lazy.countries_from_currency_iso s σ)) = false
  ∧ (Lazy.coherent σ →
     fst (Lazy.countries_from_currency_iso s σ)
     = Return (FxCodes.countries_from_currency_iso (Lazy.data_file_contents σ) s)
     ∧ Lazy.coherent (snd (Lazy.countries_from_currency_iso s σ))).
Proof.
  apply (one_table_coherent _ FxCodes.currency_iso_to_countries_map
           (λ m, FxCodes.get_countries_from_currency_iso m s)).
  destruct (read_currency_iso_to_countries_map σ) as (v & σ' & ? & _ & _ & ?). eauto.
Qed.

Lemma currency_iso_from_country_coherent repr_set s σ :
  Lazy.coherent σ →
  fst (Lazy.currency_iso_from_country repr_set s σ)
  = FxCodes.currency_iso_from_country repr_set (Lazy.data_file_contents σ) s
  ∧ Lazy.coherent (snd (Lazy.currency_iso_from_country repr_set s σ)).
Proof.
  intros Hcoh.
  destruct (read_country_to_currency_isos_map σ) as (d & σ1 & H1 & K1 & _ & C1).
  destruct (C1 Hcoh) as [Hcoh1 ->].
  destruct (read_country_to_primary_currency_iso_map σ1) as (m & σ2 & H2 & _ & _ & C2).
  destruct (C2 Hcoh1) as [Hcoh2 ->].
  destruct K1 as [Hd _]. rewrite Hd in *.
  unfold Lazy.currency_iso_from_country, Lazy.currency_isos_from_country,
    FxCodes.currency_iso_from_country, FxCodes.currency_isos_from_country,
    Lazy.bind, Lazy.ret, Lazy.lift, Lazy.raise.
  rewrite H1.
  destruct (size _ =? 0)%nat; [done |]. destruct (size _ =? 1)%nat; [done |].
  rewrite H2. by destruct (_ !! upper s).
Qed.

Lemma country_from_currency_iso_coherent repr_set s σ :
  Lazy.coherent σ →
  fst (Lazy.country_from_currency_iso repr_set s σ)
  = FxCodes.country_from_currency_iso repr_set (Lazy.data_file_contents σ) s
  ∧ Lazy.coherent (snd (Lazy.country_from_currency_iso repr_set s σ)).
Proof.
  intros Hcoh.
  destruct (read_currency_iso_to_countries_map σ) as (d & σ1 & H1 & K1 & _ & C1).
  destruct (C1 Hcoh) as [Hcoh1 ->].
  destruct (read_currency_iso_to_owner_country_map σ1) as (m & σ2 & H2 & _ & _ & C2).
  destruct (C2 Hcoh1) as [Hcoh2 ->].
  destruct K1 as [Hd _]. rewrite Hd in *.
  unfold Lazy.country_from_currency_iso, Lazy.countries_from_currency_iso,
    FxCodes.country_from_currency_iso, FxCodes.countries_from_currency_iso,
    Lazy.bind, Lazy.ret, Lazy.lift, Lazy.raise.
  rewrite H1.
  destruct (size _ =? 0)%nat; [done |]. destruct (size _ =? 1)%nat; [done |].
  rewrite H2. by destruct (truthy_opt _).
Qed.

Lemma new_coherent data : Lazy.coherent (Lazy.new data).
Proof. unfold Lazy.coherent, Lazy.new, Lazy.slot_ok. simpl. repeat split; by left. Qed.

(** ** Unknown keys *)

Lemma set_loop_no_key {A} (key val : A → string) d0 l k :
  d0 !! k = None → (∀ e, e ∈ l → key e ≠ k) →
  foldl (λ d e, DefaultDict.add_to d (key e) (val e)) d0 l !! k = None.
Proof.
  revert d0. induction l as [|x l IH]; intros d0 Hd Hl; simpl; [done |].
  apply IH.
  - assert (key x ≠ k) as Hx by (apply Hl, list_elem_of_here).
    unfold DefaultDict.add_to, DefaultDict.getitem.
    destruct (d0 !! key x); rewrite !lookup_insert_ne; done.
  - intros e He. apply Hl. by apply list_elem_of_further.
Qed.

Lemma unknown_currency_iso data s :
  (∀ e, e ∈ FxCodes.json_data data → currency_iso e ≠ upper s) →
  FxCodes.currency_from_currency_iso data s = None.
Proof.
  intros H. unfold FxCodes.currency_from_currency_iso, FxCodes.get_currency_from_currency_iso.
  rewrite lookup_currency_iso_to_currency, no_writer; [done |]. auto.
Qed.

Lemma unknown_currency data s :
  (∀ e, e ∈ FxCodes.json_data data → upper (currency e) ≠ upper s) →
  FxCodes.currency_iso_from_currency data s = None.
Proof.
  intros H. unfold FxCodes.currency_iso_from_currency, FxCodes.get_currency_iso_from_currency.
  rewrite lookup_currency_to_currency_iso, no_writer; [done |]. auto.
Qed.

Lemma unknown_country data s :
  (∀ e, e ∈ FxCodes.json_data data → upper (country e) ≠ upper s) →
  FxCodes.country_to_currency_isos_map (FxCodes.json_data data) !! upper s = None
  ∧ FxCodes.currency_isos_from_country data s = ∅.
Proof.
  intros H.
  assert (FxCodes.country_to_currency_isos_map (FxCodes.json_data data) !! upper s = None) as Hn.
  { by apply (set_loop_no_key (λ e, upper (country e)) currency_iso). }
  split; [done |].
  unfold FxCodes.currency_isos_from_country, FxCodes.get_currency_isos_from_country,
    DefaultDict.get.
  by rewrite Hn.
Qed.

Lemma unknown_users data s :
  (∀ e, e ∈ FxCodes.json_data data → currency_iso e ≠ upper s) →
  FxCodes.currency_iso_to_countries_map (FxCodes.json_data data) !! upper s = None
  ∧ FxCodes.countries_from_currency_iso data s = ∅.
Proof.
  intros H.
  assert (FxCodes.currency_iso_to_countries_map (FxCodes.json_data data) !! upper s = None) as Hn.
  { by apply (set_loop_no_key currency_iso country). }
  split; [done |].
  unfold FxCodes.countries_from_currency_iso, FxCodes.get_countries_from_currency_iso,
    DefaultDict.get.
  by rewrite Hn.
Qed.

(** C7. The four plain lookups never raise, whatever the object holds.
    On a coherent object each returns what the data file determines,
    and that is [None] (for the two name and code lookups) or the
    empty set (for the two set lookups) when no retained entry has the
    key. *)
Theorem plain_lookups_return (σ : Lazy.fx_codes) (s : string) :
  (raises (fst (Lazy.currency_from_currency_iso s σ)) = false
   ∧ raises (fst (Lazy.currency_iso_from_currency s σ)) = false
   ∧ raises (fst (Lazy.currency_isos_from_country s σ)) = false
   ∧ raises (fst (Lazy.countries_from_currency_iso s σ)) = false) ∧
  (Lazy.coherent σ →
   let data := Lazy.data_file_contents σ in
   (fst (Lazy.currency_from_currency_iso s σ)
    = Return (FxCodes.currency_from_currency_iso data s)
    ∧ fst (Lazy.currency_iso_from_currency s σ)
      = Return (FxCodes.currency_iso_from_currency data s)
    ∧ fst (Lazy.currency_isos_from_country s σ)
      = Return (FxCodes.currency_isos_from_country data s)
    ∧ fst (Lazy.countries_from_currency_iso s σ)
      = Return (FxCodes.countries_from_currency_iso data s)) ∧
   ((∀ e, e ∈ FxCodes.json_data data → currency_iso e ≠ upper s) →
    fst (Lazy.currency_from_currency_iso s σ) = Return None
    ∧ fst (Lazy.countries_from_currency_iso s σ) = Return ∅) ∧
   ((∀ e, e ∈ FxCodes.json_data data → upper (currency e) ≠ upper s) →
    fst (Lazy.currency_iso_from_currency s σ) = Return None) ∧
   ((∀ e, e ∈ FxCodes.json_data data → upper (country e) ≠ upper s) →
    fst (Lazy.currency_isos_from_country s σ) = Return ∅)).
Proof.
  destruct (currency_from_currency_iso_coherent s σ) as [R1 C1].
  destruct (currency_iso_from_currency_coherent s σ) as [R2 C2].
  destruct (currency_isos_from_country_coherent s σ) as [R3 C3].
  destruct (countries_from_currency_iso_coherent s σ) as [R4 C4].
  split; [done |]. intros Hcoh data.
  destruct (C1 Hcoh) as [E1 _], (C2 Hcoh) as [E2 _], (C3 Hcoh) as [E3 _],
    (C4 Hcoh) as [E4 _].
  split; [done |]. split; [| split].
  - intros H. rewrite E1, E4. fold data.
    by rewrite (unknown_currency_iso data s H), (proj2 (unknown_users data s H)).
  - intros H. rewrite E2. fold data. by rewrite (unknown_currency data s H).
  - intros H. rewrite E3. fold data. by rewrite (proj2 (unknown_country data s H)).
Qed.

Lemma plain_lookups_return_witness :
  fst (Lazy.currency_from_currency_iso "zzz" (Lazy.new Sample.data)) = Return None
  ∧ fst (Lazy.countries_from_currency_iso "zzz" (Lazy.new Sample.data)) = Return ∅.
Proof.
  apply (plain_lookups_return (Lazy.new Sample.data) "zzz").
  - unfold Lazy.coherent, Lazy.slot_ok. simpl. repeat split; by left.
  - intros e He. vm_compute in He.
    repeat (apply elem_of_cons in He as [-> | He]; [by vm_compute |]).
    by apply elem_of_nil in He.
Defined.

(** ** Lookups leave the tables alone *)

Lemma set_slot_after_isos s σ :
  Lazy.coherent σ →
  Lazy.slot_country_to_currency_isos_map (snd (Lazy.currency_isos_from_country s σ))
  = Some (FxCodes.country_to_currency_isos_map
            (FxCodes.json_data (Lazy.data_file_contents σ))).
Proof.
  intros Hcoh.
  destruct (read_country_to_currency_isos_map σ) as (v & σ' & H & _ & S & C).
  destruct (C Hcoh) as [_ <-].
  unfold Lazy.currency_isos_from_country, Lazy.bind, Lazy.ret. by rewrite H.
Qed.

Lemma set_slot_after_countries s σ :
  Lazy.coherent σ →
  Lazy.slot_currency_iso_to_countries_map (snd (Lazy.countries_from_currency_iso s σ))
  = Some (FxCodes.currency_iso_to_countries_map
            (FxCodes.json_data (Lazy.data_file_contents σ))).
Proof.
  intros Hcoh.
  destruct (read_currency_iso_to_countries_map σ) as (v & σ' & H & _ & S & C).
  destruct (C Hcoh) as [_ <-].
  unfold Lazy.countries_from_currency_iso, Lazy.bind, Lazy.ret. by rewrite H.
Qed.

(** C10. A lookup changes no table that has been built, and a second
    call with the same argument gives the same result and changes
    nothing: this holds for the six lookups on every object.  On a
    coherent object the object stays coherent, so each table, once
    built, is the table of the data file; in particular after
    [currency_isos_from_country] or [countries_from_currency_iso] the
    set-valued table consulted is that table, and it has no entry for
    a key that no retained entry has: the lookup reads it with [get],
    which binds nothing. *)
Theorem lookups_leave_tables (repr_set : gset string → string) (σ : Lazy.fx_codes)
    (s : string) :
  (repeatable (Lazy.currency_iso_from_currency s) σ
   ∧ repeatable (Lazy.currency_from_currency_iso s) σ
   ∧ repeatable (Lazy.currency_isos_from_country s) σ
   ∧ repeatable (Lazy.currency_iso_from_country repr_set s) σ
   ∧ repeatable (Lazy.countries_from_currency_iso s) σ
   ∧ repeatable (Lazy.country_from_currency_iso repr_set s) σ) ∧
  (Lazy.coherent σ →
   let entries := FxCodes.json_data (Lazy.data_file_contents σ) in
   (Lazy.coherent (snd (Lazy.currency_iso_from_currency s σ))
    ∧ Lazy.coherent (snd (Lazy.currency_from_currency_iso s σ))
    ∧ Lazy.coherent (snd (Lazy.currency_isos_from_country s σ))
    ∧ Lazy.coherent (snd (Lazy.currency_iso_from_country repr_set s σ))
    ∧ Lazy.coherent (snd (Lazy.countries_from_currency_iso s σ))
    ∧ Lazy.coherent (snd (Lazy.country_from_currency_iso repr_set s σ))) ∧
   ((∀ e, e ∈ entries → upper (country e) ≠ upper s) →
    ∃ d, Lazy.slot_country_to_currency_isos_map (snd (Lazy.currency_isos_from_country s σ))
         = Some d
         ∧ d = FxCodes.country_to_currency_isos_map entries
         ∧ d !! upper s = None) ∧
   ((∀ e, e ∈ entries → currency_iso e ≠ upper s) →
    ∃ d, Lazy.slot_currency_iso_to_countries_map (snd (Lazy.countries_from_currency_iso s σ))
         = Some d
         ∧ d = FxCodes.currency_iso_to_countries_map entries
         ∧ d !! upper s = None)).
Proof.
  split.
  - split; [apply currency_iso_from_currency_repeatable |].
    split; [apply currency_from_currency_iso_repeatable |].
    split; [apply currency_isos_from_country_repeatable |].
    split; [apply currency_iso_from_country_repeatable |].
    split; [apply countries_from_currency_iso_repeatable |].
    apply country_from_currency_iso_repeatable.
  - intros Hcoh entries. split; [| split].
    + split; [| split; [| split; [| split; [| split]]]].
      * by apply currency_iso_from_currency_coherent.
      * by apply currency_from_currency_iso_coherent.
      * by apply currency_isos_from_country_coherent.
      * by apply currency_iso_from_country_coherent.
      * by apply countries_from_currency_iso_coherent.
      * by apply country_from_currency_iso_coherent.
    + intros H. eexists. split; [by apply set_slot_after_isos |]. split; [done |].
      by apply unknown_country.
    + intros H. eexists. split; [by apply set_slot_after_countries |]. split; [done |].
      by apply unknown_users.
Qed.

Lemma lookups_leave_tables_witness :
  ∃ d, Lazy.slot_country_to_currency_isos_map
         (snd (Lazy.currency_isos_from_country "zz" (Lazy.new Sample.data))) = Some d
       ∧ d = FxCodes.country_to_currency_isos_map (FxCodes.json_data Sample.data)
       ∧ d !! "ZZ" = None.
Proof.
  apply (lookups_leave_tables Sample.repr_set (Lazy.new Sample.data) "zz").
  - unfold Lazy.coherent, Lazy.slot_ok. simpl. repeat split; by left.
  - intros e He. vm_compute in He.
    repeat (apply elem_of_cons in He as [-> | He]; [by vm_compute |]).
    by apply elem_of_nil in He.
Defined.

(** Subscripting the table, which the lookups do not do, would bind
    the unknown key. *)
Example getitem_binds_unknown_key :
  snd (DefaultDict.getitem (FxCodes.country_to_currency_isos_map (FxCodes.json_data Sample.data))
         "ZZ") !! "ZZ" = Some ∅
  ∧ DefaultDict.get (FxCodes.country_to_currency_isos_map (FxCodes.json_data Sample.data)) "ZZ"
    = None.
Proof. by vm_compute. Qed.

(** ** The command-line queries *)



(** C9, as the code has it.  The code query asks
    [FxCodes.country_from_currency_iso].  [None] prints
    [Unknown currency ISO: {iso}] and returns -1; a country prints
    [{iso}: {country} ({currency name of iso})] and returns 0, where a
    country that is a known country code is shown by its display name;
    a failure of the lookup goes through. *)
Theorem country_from_currency_iso_query (repr_set : gset string → string)
    (cc : CurrencyCode.country_codes) (data : list json_entry) (iso : string) :
  let found := FxCodes.country_from_currency_iso repr_set data iso in
  let out := CurrencyCode.country_from_currency_iso repr_set cc data iso in
  (found = Return None →
   out = Return (CurrencyCode.Outcome ["Unknown currency ISO: " +:+ iso] (-1))) ∧
  (∀ country, found = Return (Some country) →
     CurrencyCode.in_codes cc country = true →
     out = Return (CurrencyCode.Outcome
                     [iso +:+ ": " +:+ CurrencyCode.getitem cc country +:+ " ("
                        +:+ str_opt (FxCodes.currency_from_currency_iso data iso) +:+ ")"]
                     0)) ∧
  (∀ country, found = Return (Some country) →
     CurrencyCode.in_codes cc country = false →
     out = Return (CurrencyCode.Outcome
                     [iso +:+ ": " +:+ country +:+ " ("
                        +:+ str_opt (FxCodes.currency_from_currency_iso data iso) +:+ ")"]
                     0)) ∧
  (∀ e, found = Raise e → out = Raise e).
Proof.
  intros found out. subst out. unfold CurrencyCode.country_from_currency_iso. fold found.
  split; [| split; [| split]].
  - by intros ->.
  - by intros country -> ->.
  - by intros country -> ->.
  - by intros e ->.
Qed.

Lemma country_from_currency_iso_query_witness :
  CurrencyCode.country_from_currency_iso Sample.repr_set Sample.country_codes Sample.data "usd"
  = Return (CurrencyCode.Outcome ["usd: United States (US Dollar)"] 0)
  ∧ CurrencyCode.country_from_currency_iso Sample.repr_set Sample.country_codes Sample.data
      "chf"
    = Return (CurrencyCode.Outcome ["chf: CH (Swiss Franc)"] 0)
  ∧ CurrencyCode.country_from_currency_iso Sample.repr_set Sample.country_codes Sample.data
      "ZZZ"
    = Return (CurrencyCode.Outcome ["Unknown currency ISO: ZZZ"] (-1)).
Proof.
  split; [| split].
  - apply (proj1 (proj2 (country_from_currency_iso_query Sample.repr_set
                           Sample.country_codes Sample.data "usd")) "US");
      by vm_compute.
  - apply (proj1 (proj2 (proj2 (country_from_currency_iso_query Sample.repr_set
                                   Sample.country_codes Sample.data "chf"))) "CH");
      by vm_compute.
  - apply (proj1 (country_from_currency_iso_query Sample.repr_set
                    Sample.country_codes Sample.data "ZZZ")).
    by vm_compute.
Defined.

(** C9, as stated, fails: for a code that no country uses the line
    printed is [Unknown currency ISO: ZZZ], which does not mention
    "unknown currency code". *)
Lemma unknown_code_line_wording :
  FxCodes.country_from_currency_iso Sample.repr_set Sample.data "ZZZ" = Return None
  ∧ ¬ says_unknown_currency_code
        (CurrencyCode.country_from_currency_iso Sample.repr_set Sample.country_codes
           Sample.data "ZZZ").
Proof.
  split; [by vm_compute |].
  intros (line & st & H & Hm & _). vm_compute in H. injection H as <- _.
  vm_compute in Hm. discriminate Hm.
Qed.

(** * Further properties of the tables and lookups *)

Lemma upper_ascii_idem c : upper_ascii (upper_ascii c) = upper_ascii c.
Proof. destruct c as [[] [] [] [] [] [] [] []]; reflexivity. Qed.

Lemma upper_idem s : upper (upper s) = upper s.
Proof. induction s as [|c s IH]; simpl; [done |]. by rewrite upper_ascii_idem, IH. Qed.

Lemma json_data_app d1 d2 :
  FxCodes.json_data (d1 ++ d2)%list = (FxCodes.json_data d1 ++ FxCodes.json_data d2)%list.
Proof. unfold FxCodes.json_data. apply omap_app. Qed.

(** X1. The codes returned for a country are exactly the codes of the
    retained entries whose country is that country, letter case apart;
    the countries returned for a code are exactly the countries, as
    written in the file, of the retained entries whose code is the
    upper-cased query. *)
Theorem lookup_sets_membership (data : list json_entry) (k c x : string) :
  (c ∈ FxCodes.currency_isos_from_country data k ↔
   ∃ e, e ∈ FxCodes.json_data data ∧ upper (country e) = upper k ∧ currency_iso e = c)
  ∧ (x ∈ FxCodes.countries_from_currency_iso data c ↔
     ∃ e, e ∈ FxCodes.json_data data ∧ currency_iso e = upper c ∧ country e = x).
Proof.
  split; [apply elem_of_currency_isos_from_country | apply elem_of_countries_from_currency_iso].
Qed.

Lemma lookup_sets_membership_witness :
  "INR" ∈ FxCodes.currency_isos_from_country Sample.data "bt"
  ∧ "DE" ∈ FxCodes.countries_from_currency_iso Sample.data "eur".
Proof.
  split.
  - apply (lookup_sets_membership Sample.data "bt" "INR" "").
    exists (Entry "BT" "Indian Rupee" "INR" JNull JNull).
    split; [| split; reflexivity].
    vm_compute. do 8 apply list_elem_of_further. apply list_elem_of_here.
  - apply (lookup_sets_membership Sample.data "" "eur" "DE").
    exists (Entry "DE" "Euro" "EUR" JNull JNull).
    split; [| split; reflexivity].
    vm_compute. do 3 apply list_elem_of_further. apply list_elem_of_here.
Defined.

Lemma returned_code_candidate repr_set data s v :
  FxCodes.currency_iso_from_country repr_set data s = Return (Some v) →
  v ∈ FxCodes.currency_isos_from_country data s.
Proof.
  unfold FxCodes.currency_iso_from_country.
  destruct (size_cases (FxCodes.currency_isos_from_country data s))
    as [[-> ->] | [(x & Hx & ->) | Hsz]]; simpl; [done | |].
  - rewrite Hx, next_iter_singleton. intros [= ->]. set_solver.
  - destruct (size_two_tests _ Hsz) as [-> ->].
    destruct (_ !! upper s) as [p|] eqn:Hp; [| done].
    intros [= ->]. apply primary_lookup_record in Hp as (e & (He & _ & Hk) & Hc).
    apply elem_of_currency_isos_from_country. eauto.
Qed.

Lemma returned_country_candidate repr_set data s v :
  FxCodes.country_from_currency_iso repr_set data s = Return (Some v) →
  v ∈ FxCodes.countries_from_currency_iso data s.
Proof.
  unfold FxCodes.country_from_currency_iso.
  destruct (size_cases (FxCodes.countries_from_currency_iso data s))
    as [[-> ->] | [(x & Hx & ->) | Hsz]]; simpl; [done | |].
  - rewrite Hx, next_iter_singleton. intros [= ->]. set_solver.
  - destruct (size_two_tests _ Hsz) as [-> ->].
    destruct (_ !! upper s) as [p|] eqn:Hp; simpl; [| done].
    destruct (bool_decide _); simpl; [done |].
    intros [= ->]. apply owner_lookup_record in Hp as (e & (He & _ & Hk) & Hc).
    apply elem_of_countries_from_currency_iso. eauto.
Qed.

(** X2. A code returned by [currency_iso_from_country] is one of the
    codes of that country, and a country returned by
    [country_from_currency_iso] is one of the countries of that code:
    neither lookup answers outside its candidate set. *)
Theorem returned_value_is_candidate (repr_set : gset string → string)
    (data : list json_entry) (s v : string) :
  (FxCodes.currency_iso_from_country repr_set data s = Return (Some v) →
   v ∈ FxCodes.currency_isos_from_country data s)
  ∧ (FxCodes.country_from_currency_iso repr_set data s = Return (Some v) →
     v ∈ FxCodes.countries_from_currency_iso data s).
Proof.
  split; [apply returned_code_candidate | apply returned_country_candidate].
Qed.

Lemma returned_value_is_candidate_witness :
  "CUP" ∈ FxCodes.currency_isos_from_country Sample.data "cu"
  ∧ "US" ∈ FxCodes.countries_from_currency_iso Sample.data "usd".
Proof.
  split.
  - apply (returned_value_is_candidate Sample.repr_set Sample.data "cu" "CUP").
    by vm_compute.
  - apply (returned_value_is_candidate Sample.repr_set Sample.data "usd" "US").
    by vm_compute.
Defined.

Lemma isos_empty_iff data k :
  FxCodes.currency_isos_from_country data k = ∅ ↔
  ∀ e, e ∈ FxCodes.json_data data → upper (country e) ≠ upper k.
Proof.
  split.
  - intros H e He Hk.
    assert (currency_iso e ∈ FxCodes.currency_isos_from_country data k) as Hin
      by (apply elem_of_currency_isos_from_country; eauto).
    rewrite H in Hin. set_solver.
  - intros H. by apply unknown_country.
Qed.

Lemma countries_empty_iff data c :
  FxCodes.countries_from_currency_iso data c = ∅ ↔
  ∀ e, e ∈ FxCodes.json_data data → currency_iso e ≠ upper c.
Proof.
  split.
  - intros H e He Hk.
    assert (country e ∈ FxCodes.countries_from_currency_iso data c) as Hin
      by (apply elem_of_countries_from_currency_iso; eauto).
    rewrite H in Hin. set_solver.
  - intros H. by apply unknown_users.
Qed.

Lemma size_ge_two_not_empty (s : gset string) : (2 ≤ size s)%nat → s ≠ ∅.
Proof. intros H ->. rewrite size_empty in H. lia. Qed.

(** X3. [currency_iso_from_country] returns [None] exactly when no
    retained entry has the country (letter case apart), and
    [country_from_currency_iso] returns [None] exactly when no retained
    entry has the upper-cased code: [None] always means unknown, never
    undecided. *)
Theorem none_iff_unknown (repr_set : gset string → string) (data : list json_entry)
    (s : string) :
  (FxCodes.currency_iso_from_country repr_set data s = Return None ↔
   ∀ e, e ∈ FxCodes.json_data data → upper (country e) ≠ upper s)
  ∧ (FxCodes.country_from_currency_iso repr_set data s = Return None ↔
     ∀ e, e ∈ FxCodes.json_data data → currency_iso e ≠ upper s).
Proof.
  split.
  - rewrite <- isos_empty_iff. unfold FxCodes.currency_iso_from_country.
    destruct (size_cases (FxCodes.currency_isos_from_country data s))
      as [[He ->] | [(x & Hx & ->) | Hsz]]; simpl; [done | |].
    + rewrite Hx, next_iter_singleton. split; [done |]. set_solver.
    + destruct (size_two_tests _ Hsz) as [-> ->].
      pose proof (size_ge_two_not_empty _ Hsz).
      destruct (_ !! upper s); split; done.
  - rewrite <- countries_empty_iff. unfold FxCodes.country_from_currency_iso.
    destruct (size_cases (FxCodes.countries_from_currency_iso data s))
      as [[He ->] | [(x & Hx & ->) | Hsz]]; simpl; [done | |].
    + rewrite Hx, next_iter_singleton. split; [done |]. set_solver.
    + destruct (size_two_tests _ Hsz) as [-> ->].
      pose proof (size_ge_two_not_empty _ Hsz).
      destruct (_ !! upper s) as [p|]; simpl; [destruct (bool_decide _); simpl |];
        split; done.
Qed.

Lemma none_iff_unknown_witness :
  FxCodes.currency_iso_from_country Sample.repr_set Sample.data "Atlantis" = Return None
  ∧ ∀ e, e ∈ FxCodes.json_data Sample.data → currency_iso e ≠ "XXX".
Proof.
  split.
  - apply (none_iff_unknown Sample.repr_set Sample.data "Atlantis").
    intros e He. vm_compute in He.
    repeat (apply elem_of_cons in He as [-> | He]; [by vm_compute |]).
    by apply elem_of_nil in He.
  - apply (proj2 (none_iff_unknown Sample.repr_set Sample.data "xxx")).
    by vm_compute.
Defined.

(** X4. [currency_iso_from_country] raises exactly when the country
    has two or more codes and no retained entry flags a primary code
    for it; [country_from_currency_iso] raises only when the code has
    two or more countries. *)
Theorem raise_iff_ambiguous (repr_set : gset string → string) (data : list json_entry)
    (s : string) :
  (raises (FxCodes.currency_iso_from_country repr_set data s) = true ↔
   (2 ≤ size (FxCodes.currency_isos_from_country data s))%nat
   ∧ ∀ e, ¬ primary_record (FxCodes.json_data data) s e)
  ∧ (raises (FxCodes.country_from_currency_iso repr_set data s) = true →
     (2 ≤ size (FxCodes.countries_from_currency_iso data s))%nat).
Proof.
  split.
  - unfold FxCodes.currency_iso_from_country.
    destruct (size_cases (FxCodes.currency_isos_from_country data s))
      as [[He ->] | [(x & Hx & Hs) | Hsz]].
    + simpl. split; [done |]. intros [? _]. lia.
    + rewrite Hs. simpl. rewrite Hx, next_iter_singleton. simpl.
      split; [done |]. intros [? _]. lia.
    + destruct (size_two_tests _ Hsz) as [-> ->].
      destruct (_ !! upper s) as [p|] eqn:Hp; simpl.
      * split; [done |]. intros [_ Hno].
        apply primary_lookup_record in Hp as (e & He & _). by destruct (Hno e).
      * split; [| done]. intros _. split; [done |]. by apply primary_lookup_none.
  - unfold FxCodes.country_from_currency_iso.
    destruct (size_cases (FxCodes.countries_from_currency_iso data s))
      as [[He ->] | [(x & Hx & Hs) | Hsz]]; [done | | done].
    rewrite Hs. simpl. by rewrite Hx, next_iter_singleton.
Qed.

Lemma raise_iff_ambiguous_witness :
  raises (FxCodes.currency_iso_from_country Sample.repr_set Sample.data "bt") = true
  ∧ (2 ≤ size (FxCodes.countries_from_currency_iso Sample.data "eur"))%nat.
Proof.
  split.
  - apply (raise_iff_ambiguous Sample.repr_set Sample.data "bt"). split.
    + vm_compute. lia.
    + intros e (He & Ht & Hk). vm_compute in He.
      repeat (apply elem_of_cons in He as [-> | He]; [by vm_compute in Ht, Hk |]).
      by apply elem_of_nil in He.
  - apply (proj2 (raise_iff_ambiguous Sample.repr_set Sample.data "eur")).
    by vm_compute.
Defined.

Lemma elem_of_currencies entries n :
  n ∈ FxCodes.currencies entries ↔ ∃ e, e ∈ entries ∧ currency e = n.
Proof.
  unfold FxCodes.currencies. rewrite elem_of_list_to_set, list_elem_of_fmap. naive_solver.
Qed.

Lemma elem_of_countries entries x :
  x ∈ FxCodes.countries entries ↔ ∃ e, e ∈ entries ∧ country e = x.
Proof.
  unfold FxCodes.countries. rewrite elem_of_list_to_set, list_elem_of_fmap. naive_solver.
Qed.

(** X5. The three sets of known names agree with the lookups: a code
    has a currency name exactly when its upper-cased form is in
    [currency_iso_codes], that name is in [currencies], a code found
    for a currency name or for a country is in [currency_iso_codes],
    and a country found for a code is in [countries]. *)
Theorem known_sets_agree (data : list json_entry) (s : string) :
  (is_Some (FxCodes.currency_from_currency_iso data s) ↔
   upper s ∈ FxCodes.currency_iso_codes (FxCodes.json_data data))
  ∧ (∀ n, FxCodes.currency_from_currency_iso data s = Some n →
          n ∈ FxCodes.currencies (FxCodes.json_data data))
  ∧ (∀ c, FxCodes.currency_iso_from_currency data s = Some c →
          c ∈ FxCodes.currency_iso_codes (FxCodes.json_data data))
  ∧ FxCodes.currency_isos_from_country data s
      ⊆ FxCodes.currency_iso_codes (FxCodes.json_data data)
  ∧ FxCodes.countries_from_currency_iso data s ⊆ FxCodes.countries (FxCodes.json_data data).
Proof.
  split; [| split; [| split; [| split]]].
  - unfold FxCodes.currency_from_currency_iso, FxCodes.get_currency_from_currency_iso.
    rewrite lookup_currency_iso_to_currency, elem_of_currency_iso_codes. split.
    + intros [n Hn]. destruct (last _) as [e|] eqn:He; [| done].
      apply last_writer in He as (? & _ & ?). eauto.
    + intros (e & He & Hc).
      destruct (some_writer currency_iso (λ _, true) _ _ e He eq_refl Hc) as [w ->].
      by eexists.
  - intros n. unfold FxCodes.currency_from_currency_iso, FxCodes.get_currency_from_currency_iso.
    rewrite lookup_currency_iso_to_currency.
    destruct (last _) as [e|] eqn:He; [| done]. intros [= <-].
    apply last_writer in He as (? & _ & ?). apply elem_of_currencies. eauto.
  - intros c. unfold FxCodes.currency_iso_from_currency, FxCodes.get_currency_iso_from_currency.
    rewrite lookup_currency_to_currency_iso.
    destruct (last _) as [e|] eqn:He; [| done]. intros [= <-].
    apply last_writer in He as (? & _ & ?). apply elem_of_currency_iso_codes. eauto.
  - intros c Hc. apply elem_of_currency_isos_from_country in Hc as (e & ? & _ & ?).
    apply elem_of_currency_iso_codes. eauto.
  - intros x Hx. apply elem_of_countries_from_currency_iso in Hx as (e & ? & _ & ?).
    apply elem_of_countries. eauto.
Qed.

Lemma known_sets_agree_witness :
  "CHF" ∈ FxCodes.currency_iso_codes (FxCodes.json_data Sample.data)
  ∧ "Swiss Franc" ∈ FxCodes.currencies (FxCodes.json_data Sample.data).
Proof.
  split.
  - apply (proj1 (proj1 (known_sets_agree Sample.data "chf"))).
    exists "Swiss Franc". by vm_compute.
  - apply (proj1 (proj2 (known_sets_agree Sample.data "chf")) "Swiss Franc").
    by vm_compute.
Defined.

Lemma keep_text e s :
  AlphabeticCode e = CodeText s →
  FxCodes.json_data [e]
  = [Entry (Entity e) (Currency e) s (get_flag (Owner e)) (get_flag (Primary e))].
Proof. intros H. unfold FxCodes.json_data, FxCodes.keep. simpl. by rewrite H. Qed.

(** X6. The later entry wins in the two name tables: once an entry
    with code [upper s] is appended to the file, the currency name of
    [s] is that entry's name, and once an entry with a currency name
    equal to [n] (letter case apart) is appended, the code of [n] is
    that entry's code, whatever the earlier entries say. *)
Theorem last_entry_wins (data : list json_entry) (e : json_entry) (s : string) :
  (AlphabeticCode e = CodeText (upper s) →
   FxCodes.currency_from_currency_iso (data ++ [e])%list s = Some (Currency e))
  ∧ (∀ c, AlphabeticCode e = CodeText c → upper (Currency e) = upper s →
          FxCodes.currency_iso_from_currency (data ++ [e])%list s = Some c).
Proof.
  split.
  - intros H. unfold FxCodes.currency_from_currency_iso,
      FxCodes.get_currency_from_currency_iso, FxCodes.currency_iso_to_currency_map.
    rewrite json_data_app, (keep_text e _ H), foldl_app. simpl.
    apply lookup_insert_eq.
  - intros c H Hn. unfold FxCodes.currency_iso_from_currency,
      FxCodes.get_currency_iso_from_currency, FxCodes.currency_to_currency_iso_map.
    rewrite json_data_app, (keep_text e _ H), foldl_app. simpl.
    rewrite Hn. apply lookup_insert_eq.
Qed.

Lemma last_entry_wins_witness :
  FxCodes.currency_from_currency_iso
    (Sample.data ++ [JsonEntry "US" "United States Dollar" (CodeText "USD") None None])%list
    "usd"
  = Some "United States Dollar"
  ∧ FxCodes.currency_iso_from_currency
      (Sample.data ++ [JsonEntry "LI" "SWISS FRANC" (CodeText "CHW") None None])%list
      "Swiss franc"
    = Some "CHW".
Proof.
  split.
  - apply (last_entry_wins Sample.data
             (JsonEntry "US" "United States Dollar" (CodeText "USD") None None) "usd").
    reflexivity.
  - apply (proj2 (last_entry_wins Sample.data
                    (JsonEntry "LI" "SWISS FRANC" (CodeText "CHW") None None) "Swiss franc")
             "CHW"); reflexivity.
Defined.

(** X7. The two set lookups distribute over joining data files: the
    codes of a country in [d1 ++ d2] are its codes in [d1] together
    with its codes in [d2], and likewise for the countries of a code;
    so adding entries never removes an answer. *)
Theorem set_lookups_split (d1 d2 : list json_entry) (s : string) :
  FxCodes.currency_isos_from_country (d1 ++ d2)%list s
  = FxCodes.currency_isos_from_country d1 s ∪ FxCodes.currency_isos_from_country d2 s
  ∧ FxCodes.countries_from_currency_iso (d1 ++ d2)%list s
    = FxCodes.countries_from_currency_iso d1 s ∪ FxCodes.countries_from_currency_iso d2 s.
Proof.
  split; apply set_eq; intros v; rewrite elem_of_union.
  - rewrite !elem_of_currency_isos_from_country, json_data_app.
    setoid_rewrite elem_of_app. naive_solver.
  - rewrite !elem_of_countries_from_currency_iso, json_data_app.
    setoid_rewrite elem_of_app. naive_solver.
Qed.

Lemma json_data_dropped l1 e l2 :
  get_code (AlphabeticCode e) = None →
  FxCodes.json_data (l1 ++ e :: l2)%list = FxCodes.json_data (l1 ++ l2)%list.
Proof.
  intros H. rewrite !json_data_app. f_equal.
  unfold FxCodes.json_data. simpl. unfold FxCodes.keep at 1. by rewrite H.
Qed.

(** X8. An object without a code has no effect on any lookup, wherever
    it stands in the file and whatever its other members say (its
    country, its currency name, its flags): the six lookups answer the
    same with and without it. *)
Theorem dropped_entry_has_no_effect (repr_set : gset string → string)
    (l1 l2 : list json_entry) (e : json_entry) (s : string) :
  get_code (AlphabeticCode e) = None →
  FxCodes.currency_iso_from_currency (l1 ++ e :: l2)%list s
  = FxCodes.currency_iso_from_currency (l1 ++ l2)%list s
  ∧ FxCodes.currency_from_currency_iso (l1 ++ e :: l2)%list s
    = FxCodes.currency_from_currency_iso (l1 ++ l2)%list s
  ∧ FxCodes.currency_isos_from_country (l1 ++ e :: l2)%list s
    = FxCodes.currency_isos_from_country (l1 ++ l2)%list s
  ∧ FxCodes.currency_iso_from_country repr_set (l1 ++ e :: l2)%list s
    = FxCodes.currency_iso_from_country repr_set (l1 ++ l2)%list s
  ∧ FxCodes.countries_from_currency_iso (l1 ++ e :: l2)%list s
    = FxCodes.countries_from_currency_iso (l1 ++ l2)%list s
  ∧ FxCodes.country_from_currency_iso repr_set (l1 ++ e :: l2)%list s
    = FxCodes.country_from_currency_iso repr_set (l1 ++ l2)%list s.
Proof.
  intros H. pose proof (json_data_dropped l1 e l2 H) as Hd.
  unfold FxCodes.currency_iso_from_country, FxCodes.country_from_currency_iso,
    FxCodes.currency_iso_from_currency, FxCodes.currency_from_currency_iso,
    FxCodes.currency_isos_from_country, FxCodes.countries_from_currency_iso.
  by rewrite Hd.
Qed.

Lemma dropped_entry_has_no_effect_witness :
  FxCodes.currency_iso_from_country Sample.repr_set
    ([JsonEntry "CH" "Euro" CodeNull None (Some (JBool true))] ++ Sample.data)%list "ch"
  = FxCodes.currency_iso_from_country Sample.repr_set Sample.data "ch".
Proof.
  apply (dropped_entry_has_no_effect Sample.repr_set []
           Sample.data (JsonEntry "CH" "Euro" CodeNull None (Some (JBool true))) "ch").
  reflexivity.
Defined.

(** X9. The code tables are keyed by the code as written in the file,
    and every lookup upper-cases its key.  So a country all of whose
    entries carry a code [c] with a small letter in it is returned by
    no code lookup, whatever the query, and [c] has no currency name
    under any query; the country lookup still returns [c]. *)
Theorem small_letter_code_unreachable (repr_set : gset string → string)
    (data : list json_entry) (c x : string) :
  upper c ≠ c →
  (∀ e, e ∈ FxCodes.json_data data → country e = x → currency_iso e = c) →
  (∀ s, x ∉ FxCodes.countries_from_currency_iso data s)
  ∧ (∀ s, FxCodes.country_from_currency_iso repr_set data s ≠ Return (Some x))
  ∧ (∀ s, upper s ≠ c)
  ∧ ((∃ e, e ∈ FxCodes.json_data data ∧ country e = x) →
     c ∈ FxCodes.currency_isos_from_country data x).
Proof.
  intros Hc Hx.
  assert (∀ s, upper s ≠ c) as Hkey.
  { intros s Hs. apply Hc. by rewrite <- Hs, upper_idem. }
  assert (∀ s, x ∉ FxCodes.countries_from_currency_iso data s) as Hno.
  { intros s Hin. apply elem_of_countries_from_currency_iso in Hin as (e & He & Hk & Hxe).
    apply (Hkey s). by rewrite <- Hk, (Hx e He Hxe). }
  split; [done |]. split; [| split; [done |]].
  - intros s Hs. apply (Hno s).
    by apply (returned_country_candidate repr_set data s x).
  - intros (e & He & Hxe). apply elem_of_currency_isos_from_country.
    exists e. split; [done |]. split; [by rewrite Hxe | by apply Hx].
Qed.

Lemma small_letter_code_unreachable_witness :
  (∀ s, "US" ∉ FxCodes.countries_from_currency_iso Faulty.small_code s)
  ∧ "usd" ∈ FxCodes.currency_isos_from_country Faulty.small_code "US".
Proof.
  assert (∀ e, e ∈ FxCodes.json_data Faulty.small_code → country e = "US" →
               currency_iso e = "usd") as H.
  { intros e He _. vm_compute in He. apply elem_of_cons in He as [-> | He]; [done |].
    by apply elem_of_nil in He. }
  split.
  - apply (small_letter_code_unreachable Sample.repr_set Faulty.small_code "usd" "US");
      [by vm_compute | exact H].
  - apply (small_letter_code_unreachable Sample.repr_set Faulty.small_code "usd" "US");
      [by vm_compute | exact H |].
    exists (Entry "US" "US Dollar" "usd" JNull JNull). split; [| done].
    vm_compute. apply list_elem_of_here.
Defined.

(** X10. The two set tables tell the same story.  A country listed
    for a code has the upper-cased code among its codes; and a code in
    capitals that is among the codes of a country has, among its
    countries, one that is this country, letter case apart. *)
Theorem set_tables_agree (data : list json_entry) (k c : string) :
  (k ∈ FxCodes.countries_from_currency_iso data c →
   upper c ∈ FxCodes.currency_isos_from_country data k)
  ∧ (c ∈ FxCodes.currency_isos_from_country data k → upper c = c →
     ∃ x, x ∈ FxCodes.countries_from_currency_iso data c ∧ upper x = upper k).
Proof.
  split.
  - intros (e & He & Hc & Hk)%elem_of_countries_from_currency_iso.
    apply elem_of_currency_isos_from_country. exists e. by rewrite Hk.
  - intros (e & He & Hk & Hc)%elem_of_currency_isos_from_country Hup.
    exists (country e). split; [| done].
    apply elem_of_countries_from_currency_iso. exists e. by rewrite Hup.
Qed.

Lemma set_tables_agree_witness :
  "EUR" ∈ FxCodes.currency_isos_from_country Sample.data "FR"
  ∧ ∃ x, x ∈ FxCodes.countries_from_currency_iso Sample.data "INR" ∧ upper x = "BT".
Proof.
  split.
  - apply (set_tables_agree Sample.data "FR" "eur"). by vm_compute.
  - apply (proj2 (set_tables_agree Sample.data "bt" "INR")); by vm_compute.
Defined.

(** X11. With two or more candidates, when the entries flagged for the
    key agree, the lookup returns what they say: if every entry that
    flags a primary code for the country carries code [c], the country
    lookup returns [c]; if every entry that flags an owner for the code
    names country [x], and [x] is not the empty text, the code lookup
    returns [x]. *)
Theorem agreed_flag_is_returned (repr_set : gset string → string)
    (data : list json_entry) (s v : string) :
  ((2 ≤ size (FxCodes.currency_isos_from_country data s))%nat →
   (∃ e, primary_record (FxCodes.json_data data) s e) →
   (∀ e, primary_record (FxCodes.json_data data) s e → currency_iso e = v) →
   FxCodes.currency_iso_from_country repr_set data s = Return (Some v))
  ∧ ((2 ≤ size (FxCodes.countries_from_currency_iso data s))%nat →
     (∃ e, owner_record (FxCodes.json_data data) s e) →
     (∀ e, owner_record (FxCodes.json_data data) s e → country e = v) →
     v ≠ "" →
     FxCodes.country_from_currency_iso repr_set data s = Return (Some v)).
Proof.
  split.
  - intros Hsz [e0 He0] Hall. unfold FxCodes.currency_iso_from_country.
    destruct (size_two_tests _ Hsz) as [-> ->].
    destruct (_ !! upper s) as [p|] eqn:Hp.
    + apply primary_lookup_record in Hp as (e & He & <-). by rewrite (Hall e He).
    + by destruct (primary_lookup_none _ _ Hp e0).
  - intros Hsz [e0 He0] Hall Hne. unfold FxCodes.country_from_currency_iso.
    destruct (size_two_tests _ Hsz) as [-> ->].
    destruct (_ !! upper s) as [p|] eqn:Hp.
    + apply owner_lookup_record in Hp as (e & He & <-). rewrite (Hall e He).
      simpl. by rewrite bool_decide_false.
    + by destruct (owner_lookup_none _ _ Hp e0).
Qed.

Lemma agreed_flag_is_returned_witness :
  FxCodes.country_from_currency_iso Sample.repr_set Sample.data "usd" = Return (Some "US").
Proof.
  apply (agreed_flag_is_returned Sample.repr_set Sample.data "usd" "US").
  - vm_compute. lia.
  - exists (Entry "US" "US Dollar" "USD" (JBool true) JNull).
    split; [| split; reflexivity]. vm_compute. apply list_elem_of_here.
  - intros e (He & Ht & Hk). vm_compute in He.
    repeat (apply elem_of_cons in He as [-> | He]; [by vm_compute in Ht, Hk |]).
    by apply elem_of_nil in He.
  - done.
Defined.

(** ** Further properties of the command-line queries *)

Lemma known_code_has_name data c :
  (∃ e, e ∈ FxCodes.json_data data ∧ currency_iso e = upper c) →
  ∃ e, e ∈ FxCodes.json_data data ∧ currency_iso e = upper c
       ∧ FxCodes.currency_from_currency_iso data c = Some (currency e).
Proof.
  intros (e & He & Hc).
  destruct (some_writer currency_iso (λ _, true) _ _ e He eq_refl Hc) as [w Hw].
  unfold FxCodes.currency_from_currency_iso, FxCodes.get_currency_from_currency_iso.
  rewrite lookup_currency_iso_to_currency, Hw.
  apply last_writer in Hw as (? & _ & ?). by exists w.
Qed.

(** X12. When the code query finds a country, the currency name it
    prints is a real one: the line is [{iso}: {country} ({name})] with
    [name] the currency name of a retained entry whose code is the
    upper-cased query, never the text [None]. *)
Theorem code_query_prints_name (repr_set : gset string → string)
    (cc : CurrencyCode.country_codes) (data : list json_entry) (iso found : string) :
  FxCodes.country_from_currency_iso repr_set data iso = Return (Some found) →
  ∃ e, e ∈ FxCodes.json_data data ∧ currency_iso e = upper iso
       ∧ CurrencyCode.country_from_currency_iso repr_set cc data iso
         = Return (CurrencyCode.Outcome
                     [iso +:+ ": "
                        +:+ (if CurrencyCode.in_codes cc found
                             then CurrencyCode.getitem cc found else found)
                        +:+ " (" +:+ currency e +:+ ")"]
                     0).
Proof.
  intros H.
  pose proof (returned_country_candidate _ _ _ _ H) as Hin.
  apply elem_of_countries_from_currency_iso in Hin as (e0 & He0 & Hc0 & _).
  destruct (known_code_has_name data iso) as (e & He & Hc & Hn); [eauto |].
  exists e. split; [done |]. split; [done |].
  unfold CurrencyCode.country_from_currency_iso. by rewrite H, Hn.
Qed.

Lemma code_query_prints_name_witness :
  ∃ e, e ∈ FxCodes.json_data Sample.data ∧ currency_iso e = "CUP"
       ∧ CurrencyCode.country_from_currency_iso Sample.repr_set Sample.country_codes
           Sample.data "cup"
         = Return (CurrencyCode.Outcome ["cup: CU (" +:+ currency e +:+ ")"] 0).
Proof.
  apply (code_query_prints_name Sample.repr_set Sample.country_codes Sample.data "cup" "CU").
  by vm_compute.
Defined.

(** X13. When the country query finds a code written in capitals, the
    currency name it prints is a real one: the line is
    [{text}: {code} ({name})] with [name] the currency name of a
    retained entry with that code.  (The name is looked up with the
    upper-cased code, so for a code with a small letter the query
    prints the text [None] in its place.) *)
Theorem country_query_prints_name (repr_set : gset string → string)
    (cc : CurrencyCode.country_codes) (data : list json_entry) (text code : string) :
  FxCodes.currency_iso_from_country repr_set data (CurrencyCode.resolve cc text)
  = Return (Some code) →
  (upper code = code →
   ∃ e, e ∈ FxCodes.json_data data ∧ currency_iso e = code
        ∧ CurrencyCode.currency_iso_from_country repr_set cc data text
          = Return (CurrencyCode.Outcome
                      [text +:+ ": " +:+ code +:+ " (" +:+ currency e +:+ ")"] 0))
  ∧ (upper code ≠ code →
     (∀ e, e ∈ FxCodes.json_data data → currency_iso e ≠ upper code) →
     CurrencyCode.currency_iso_from_country repr_set cc data text
     = Return (CurrencyCode.Outcome [text +:+ ": " +:+ code +:+ " (None)"] 0)).
Proof.
  intros H. split.
  - intros Hup.
    pose proof (returned_code_candidate _ _ _ _ H) as Hin.
    apply elem_of_currency_isos_from_country in Hin as (e0 & He0 & _ & Hc0).
    destruct (known_code_has_name data code) as (e & He & Hc & Hn);
      [exists e0; by rewrite Hup |].
    exists e. split; [done |]. split; [by rewrite Hc |].
    unfold CurrencyCode.currency_iso_from_country. by rewrite H, Hn.
  - intros _ Hno. unfold CurrencyCode.currency_iso_from_country.
    by rewrite H, (unknown_currency_iso data code Hno).
Qed.

Lemma country_query_prints_name_witness :
  (∃ e, e ∈ FxCodes.json_data Sample.data ∧ currency_iso e = "CHF"
        ∧ CurrencyCode.currency_iso_from_country Sample.repr_set Sample.country_codes
            Sample.data "ch"
          = Return (CurrencyCode.Outcome ["ch: CHF (" +:+ currency e +:+ ")"] 0))
  ∧ CurrencyCode.currency_iso_from_country Sample.repr_set Sample.country_codes
      Faulty.small_code "United States"
    = Return (CurrencyCode.Outcome ["United States: usd (None)"] 0).
Proof.
  split.
  - apply (proj1 (country_query_prints_name Sample.repr_set Sample.country_codes
                    Sample.data "ch" "CHF" ltac:(by vm_compute))).
    reflexivity.
  - apply (proj2 (country_query_prints_name Sample.repr_set Sample.country_codes
                    Faulty.small_code "United States" "usd" ltac:(by vm_compute))).
    + by vm_compute.
    + intros e He. vm_compute in He.
      apply elem_of_cons in He as [-> | He]; [by vm_compute |].
      by apply elem_of_nil in He.
Defined.



(** ** Further properties of the object and of the set tables *)

(** X15. On a coherent object (a new one is coherent) the two
    disambiguating methods and the subscript return, or fail with,
    exactly what the data file determines, and this does not depend
    on the calls made before: after any one of them, each of them
    still answers from the data file alone. *)
Theorem methods_answer_from_data (repr_set : gset string → string) (σ : Lazy.fx_codes)
    (s1 s2 : string) :
  Lazy.coherent σ →
  let data := Lazy.data_file_contents σ in
  (fst (Lazy.currency_iso_from_country repr_set s1 σ)
   = FxCodes.currency_iso_from_country repr_set data s1
   ∧ fst (Lazy.country_from_currency_iso repr_set s1 σ)
     = FxCodes.country_from_currency_iso repr_set data s1
   ∧ fst (Subscript.lazy__getitem__ repr_set s1 σ) = Subscript.__getitem__ repr_set data s1)
  ∧ (fst (Lazy.country_from_currency_iso repr_set s2
            (snd (Lazy.currency_iso_from_country repr_set s1 σ)))
     = FxCodes.country_from_currency_iso repr_set data s2
     ∧ fst (Lazy.currency_iso_from_country repr_set s2
              (snd (Lazy.country_from_currency_iso repr_set s1 σ)))
       = FxCodes.currency_iso_from_country repr_set data s2
     ∧ fst (Lazy.currency_iso_from_country repr_set s2
              (snd (Subscript.lazy__getitem__ repr_set s1 σ)))
       = FxCodes.currency_iso_from_country repr_set data s2).
Proof.
  intros Hcoh data.
  destruct (currency_iso_from_country_coherent repr_set s1 σ Hcoh) as [E1 C1].
  destruct (country_from_currency_iso_coherent repr_set s1 σ Hcoh) as [E2 C2].
  destruct (currency_iso_from_country_repeatable repr_set s1 σ) as [[D1 _] _].
  destruct (country_from_currency_iso_repeatable repr_set s1 σ) as [[D2 _] _].
  unfold Subscript.lazy__getitem__, Subscript.__getitem__.
  split; [done |]. subst data. rewrite <- D1 at 1. rewrite <- D2.
  split; [| split].
  - by apply country_from_currency_iso_coherent.
  - by apply currency_iso_from_country_coherent.
  - by apply currency_iso_from_country_coherent.
Qed.

Lemma methods_answer_from_data_witness :
  fst (Lazy.currency_iso_from_country Sample.repr_set "cu" (Lazy.new Sample.data))
  = Return (Some "CUP")
  ∧ fst (Lazy.country_from_currency_iso Sample.repr_set "usd"
           (snd (Lazy.currency_iso_from_country Sample.repr_set "cu" (Lazy.new Sample.data))))
    = Return (Some "US").
Proof.
  assert (Lazy.coherent (Lazy.new Sample.data)) as H
    by (unfold Lazy.coherent, Lazy.slot_ok; simpl; repeat split; by left).
  pose proof (methods_answer_from_data Sample.repr_set (Lazy.new Sample.data) "cu" "usd" H)
    as [(E1 & _) (E2 & _)].
  split; [rewrite E1 | rewrite E2]; by vm_compute.
Defined.

Lemma new_reads_isos_table data :
  Lazy.country_to_currency_isos_map (Lazy.new data)
  = (Return (FxCodes.country_to_currency_isos_map (FxCodes.json_data data)),
     Lazy.FxObject data (Some (FxCodes.json_data data)) None None
       (Some (FxCodes.country_to_currency_isos_map (FxCodes.json_data data)))
       None None None).
Proof. reflexivity. Qed.

Lemma then_reads_primary_table data :
  Lazy.country_to_primary_currency_iso_map
    (Lazy.FxObject data (Some (FxCodes.json_data data)) None None
       (Some (FxCodes.country_to_currency_isos_map (FxCodes.json_data data)))
       None None None)
  = (Return (FxCodes.country_to_primary_currency_iso_map (FxCodes.json_data data)),
     Lazy.FxObject data (Some (FxCodes.json_data data)) None None
       (Some (FxCodes.country_to_currency_isos_map (FxCodes.json_data data)))
       None None
       (Some (FxCodes.country_to_primary_currency_iso_map (FxCodes.json_data data)))).
Proof. reflexivity. Qed.

(** X16. A lookup on a new object builds what it reads and nothing
    else: the country lookup loads the data file and builds the table
    of codes by country; it builds the table of primary codes exactly
    when the country has two or more codes; and it leaves the other
    four tables unbuilt. *)
Theorem lookup_builds_what_it_reads (repr_set : gset string → string)
    (data : list json_entry) (s : string) :
  let σ' := snd (Lazy.currency_iso_from_country repr_set s (Lazy.new data)) in
  let entries := FxCodes.json_data data in
  Lazy.slot_json_data σ' = Some entries
  ∧ Lazy.slot_country_to_currency_isos_map σ'
    = Some (FxCodes.country_to_currency_isos_map entries)
  ∧ Lazy.slot_country_to_primary_currency_iso_map σ'
    = (if (2 <=? size (FxCodes.currency_isos_from_country data s))%nat
       then Some (FxCodes.country_to_primary_currency_iso_map entries) else None)
  ∧ Lazy.slot_currency_to_currency_iso_map σ' = None
  ∧ Lazy.slot_currency_iso_to_currency_map σ' = None
  ∧ Lazy.slot_currency_iso_to_countries_map σ' = None
  ∧ Lazy.slot_currency_iso_to_owner_country_map σ' = None.
Proof.
  intros σ' entries. subst σ' entries.
  unfold Lazy.currency_iso_from_country, Lazy.currency_isos_from_country,
    Lazy.bind, Lazy.ret, Lazy.lift, Lazy.raise.
  rewrite new_reads_isos_table.
  fold (FxCodes.currency_isos_from_country data s).
  destruct (size_cases (FxCodes.currency_isos_from_country data s))
    as [[_ ->] | [(x & _ & ->) | Hsz]].
  - simpl. repeat split.
  - simpl. repeat split.
  - destruct (size_two_tests _ Hsz) as [-> ->].
    apply Nat.leb_le in Hsz as ->.
    rewrite then_reads_primary_table. destruct (_ !! upper s); simpl; repeat split.
Qed.

Lemma add_to_non_empty d k v :
  (∀ k' s, d !! k' = Some s → s ≠ ∅) →
  ∀ k' s, DefaultDict.add_to d k v !! k' = Some s → s ≠ ∅.
Proof.
  intros Hd k' s. unfold DefaultDict.add_to, DefaultDict.getitem.
  destruct (decide (k = k')) as [<- | Hne].
  - destruct (d !! k); rewrite lookup_insert_eq; intros [= <-]; set_solver.
  - destruct (d !! k); rewrite !lookup_insert_ne by done; apply Hd.
Qed.

Lemma set_loop_non_empty {A} (key val : A → string) d0 l :
  (∀ k s, d0 !! k = Some s → s ≠ ∅) →
  ∀ k s, foldl (λ d e, DefaultDict.add_to d (key e) (val e)) d0 l !! k = Some s → s ≠ ∅.
Proof.
  revert d0. induction l as [|x l IH]; intros d0 Hd; simpl; [done |].
  apply IH. by apply add_to_non_empty.
Qed.

(** X17. The two tables built with [defaultdict(set)] hold no empty
    set and no key without an entry: a key is present exactly when a
    retained entry has it, and its set is then the non-empty set of
    that key's values.  So the empty set a set lookup returns always
    comes from the [is None] test, never from the table. *)
Theorem set_tables_hold_no_empty_set (entries : list entry) (k : string) :
  (∀ s, FxCodes.country_to_currency_isos_map entries !! k = Some s →
        s ≠ ∅
        ∧ ∀ c, c ∈ s ↔ ∃ e, e ∈ entries ∧ upper (country e) = k ∧ currency_iso e = c)
  ∧ (∀ s, FxCodes.currency_iso_to_countries_map entries !! k = Some s →
          s ≠ ∅
          ∧ ∀ x, x ∈ s ↔ ∃ e, e ∈ entries ∧ currency_iso e = k ∧ country e = x)
  ∧ (is_Some (FxCodes.country_to_currency_isos_map entries !! k) ↔
     ∃ e, e ∈ entries ∧ upper (country e) = k)
  ∧ (is_Some (FxCodes.currency_iso_to_countries_map entries !! k) ↔
     ∃ e, e ∈ entries ∧ currency_iso e = k).
Proof.
  assert (∀ (key val : entry → string) s,
            foldl (λ d e, DefaultDict.add_to d (key e) (val e)) ∅ entries !! k = Some s →
            s ≠ ∅ ∧ ∀ v, v ∈ s ↔ ∃ e, e ∈ entries ∧ key e = k ∧ val e = v) as Hsome.
  { intros key val s Hs. split.
    - by apply (set_loop_non_empty key val ∅ entries) with k.
    - intros v. pose proof (lookup_set_loop key val entries k) as Hl.
      rewrite Hs in Hl. simpl in Hl. rewrite Hl, elem_of_list_to_set, list_elem_of_fmap.
      split.
      + intros (e & -> & He). apply list_elem_of_filter in He as [? ?]. eauto.
      + intros (e & He & Hk & <-). exists e. split; [done |]. by apply list_elem_of_filter. }
  assert (∀ (key val : entry → string),
            is_Some (foldl (λ d e, DefaultDict.add_to d (key e) (val e)) ∅ entries !! k) ↔
            ∃ e, e ∈ entries ∧ key e = k) as Hkey.
  { intros key val. split.
    - intros [s Hs]. destruct (Hsome key val s Hs) as [Hne Hin].
      apply set_choose_L in Hne as [v Hv]. apply Hin in Hv as (e & ? & ? & _). eauto.
    - intros (e & He & Hk).
      destruct (foldl _ _ _ !! k) as [s|] eqn:Hs; [by eexists |].
      pose proof (lookup_set_loop key val entries k) as Hl. rewrite Hs in Hl. simpl in Hl.
      assert (val e ∈ (∅ : gset string)) as Hin; [| set_solver].
      rewrite Hl, elem_of_list_to_set, list_elem_of_fmap.
      exists e. split; [done |]. by apply list_elem_of_filter. }
  split; [| split; [| split]].
  - apply (Hsome (λ e, upper (country e)) currency_iso).
  - apply (Hsome currency_iso country).
  - apply (Hkey (λ e, upper (country e)) currency_iso).
  - apply (Hkey currency_iso country).
Qed.

Lemma set_tables_hold_no_empty_set_witness :
  ∃ e, e ∈ FxCodes.json_data Sample.data ∧ upper (country e) = "CU".
Proof.
  apply (set_tables_hold_no_empty_set (FxCodes.json_data Sample.data) "CU").
  vm_compute. by eexists.
Defined.
